(** * Response-body rewriting middleware: a shallow embedding of main.go

    The middleware buffers what the next handler writes, looks the captured
    status code up in the configured status ranges and rewrites the buffered
    body with the regular expressions of the first entry whose ranges
    contain it.

    Layout of the development:
    - [result]: Go's [(value, error)] results as an error monad;
    - [Text]: the few operations on strings that are used;
    - [NewHTTPCodeRanges], [Contains]: the status ranges;
    - [RegexpEngine]: the interface of Go's [regexp] package that is used,
      and what is assumed of it on literal patterns ([GoRegexp]);
    - [Sink]: the real [http.ResponseWriter], as its header map and a log
      of the calls it receives;
    - [responseWriter], [New], [ServeHTTP]: the code of main.go, and in
      [Part001] the wrapper of its earlier revision;
    - the requests of main_test.go;
    - the properties. *)

From Stdlib Require Import ZArith Ascii String.
From Stdlib.Strings Require Import Byte.
From stdpp Require Import base option list strings gmap fin_maps.

Local Open Scope string_scope.
Local Open Scope list_scope.
Local Open Scope Z_scope.

(** ** Errors and results *)

(** The errors [New] can return: the status text that did not parse, or the
    pattern that did not compile (main.go wraps the engine's own message as
    "error compiling regex %q: %w"; the message itself is not modelled). *)
Inductive error : Type :=
| ParseError (block : string)
| CompileError (pattern : string).

Inductive result (A : Type) : Type :=
| Ok (a : A)
| Err (e : error).
Arguments Ok {A} a.
Arguments Err {A} e.

Definition bind {A B : Type} (r : result A) (k : A -> result B) : result B :=
  match r with
  | Ok a => k a
  | Err e => Err e
  end.

Notation "x <-! r ; k" := (bind r (fun x => k))
  (at level 100, r at next level, right associativity).

Definition isErr {A : Type} (r : result A) : bool :=
  match r with Ok _ => false | Err _ => true end.

(** [for i, x := range xs { y, err := f(x); if err != nil { return nil, err }; ys[i] = y }] *)
Fixpoint mapM {A B : Type} (f : A -> result B) (xs : list A) : result (list B) :=
  match xs with
  | [] => Ok []
  | x :: xs' => y <-! f x; ys <-! mapM f xs'; Ok (y :: ys)
  end.

(** ** Strings *)

Module Text.

(** [[]byte(s)]: a Go string is its bytes. *)
Definition bytes (s : string) : list byte := list_byte_of_string s.

(** [strings.Split(s, sep)] for a separator of one byte. *)
Fixpoint split (sep : ascii) (s : string) : list string :=
  match s with
  | EmptyString => [EmptyString]
  | String c s' =>
      if Ascii.eqb c sep then EmptyString :: split sep s'
      else match split sep s' with
           | w :: ws => String c w :: ws
           | [] => [String c EmptyString]
           end
  end.

(** [strings.Cut(s, sep)] for a separator of one byte: the text before and
    after the first separator, if there is one. *)
Fixpoint cut (sep : ascii) (s : string) : option (string * string) :=
  match s with
  | EmptyString => None
  | String c s' =>
      if Ascii.eqb c sep then Some (EmptyString, s')
      else match cut sep s' with
           | Some (before, after) => Some (String c before, after)
           | None => None
           end
  end.

Definition isSpace (c : ascii) : bool :=
  let n := Z.of_nat (nat_of_ascii c) in
  (n =? 32) || ((9 <=? n) && (n <=? 13)).

Fixpoint trimLeft (s : string) : string :=
  match s with
  | String c s' => if isSpace c then trimLeft s' else s
  | EmptyString => EmptyString
  end.

Fixpoint trimRight (s : string) : string :=
  match s with
  | String c s' =>
      match trimRight s' with
      | EmptyString => if isSpace c then EmptyString else String c EmptyString
      | t => String c t
      end
  | EmptyString => EmptyString
  end.

(** Leading and trailing white space removed. *)
Definition trimSpace (s : string) : string := trimRight (trimLeft s).

Definition digit (c : ascii) : option Z :=
  let n := Z.of_nat (nat_of_ascii c) in
  if (48 <=? n) && (n <=? 57) then Some (n - 48) else None.

Fixpoint digits (acc : Z) (s : string) : option Z :=
  match s with
  | EmptyString => Some acc
  | String c s' =>
      match digit c with
      | Some d => digits (10 * acc + d) s'
      | None => None
      end
  end.

(** A decimal integer: an optional sign and at least one digit. *)
Definition parseInt (s : string) : option Z :=
  match s with
  | EmptyString => None
  | String "+" (String _ _ as ds) => digits 0 ds
  | String "-" (String _ _ as ds) => Z.opp <$> digits 0 ds
  | _ => digits 0 s
  end.

End Text.

(** ** Status ranges *)

(** Go's [HTTPCodeRanges] is [[][2]int]: the inclusive bounds of each range,
    in the order of the specification (main_test.go writes
    [HTTPCodeRanges{{200, 299}, {400, 499}}]). *)
Abbreviation HTTPCodeRanges := (list (Z * Z)).

Section Ranges.

(** Modelled from the spec: whether a block whose low bound exceeds its
    high bound is refused. The spec leaves it open ("implementation
    choice"), so the parser takes the choice as a parameter. *)
Variable rejectInverted : bool.

(** Modelled from the spec: the file that declares [NewHTTPCodeRanges] and
    [Contains] is not among the sources (main_test.go holds its tests).
    Each block is trimmed and is either a single integer, which stands for
    the range from it to itself, or a low-high pair separated by "-". It is
    a parse error when the block is empty or a bound is not an integer. *)
Definition parseBlock (block : string) : result (Z * Z) :=
  let b := Text.trimSpace block in
  match b with
  | EmptyString => Err (ParseError block)
  | _ =>
      match Text.cut "-" b with
      | None =>
          match Text.parseInt b with
          | Some n => Ok (n, n)
          | None => Err (ParseError block)
          end
      | Some (low, high) =>
          match Text.parseInt low, Text.parseInt high with
          | Some l, Some h =>
              if rejectInverted && (h <? l) then Err (ParseError block)
              else Ok (l, h)
          | _, _ => Err (ParseError block)
          end
      end
  end.

(** Modelled from the spec: every input string is split on "," and the
    ranges of all strings follow each other in one list; the first block
    that does not parse fails the whole construction. *)
Definition NewHTTPCodeRanges (strBlocks : list string) : result HTTPCodeRanges :=
  mapM parseBlock (concat (map (Text.split ",") strBlocks)).

End Ranges.

(** Modelled from the spec: [Contains] scans the ranges in order and answers
    at the first one whose inclusive bounds hold the code. *)
Fixpoint Contains (h : HTTPCodeRanges) (statusCode : Z) : bool :=
  match h with
  | [] => false
  | (low, high) :: h' =>
      if (low <=? statusCode) && (statusCode <=? high) then true
      else Contains h' statusCode
  end.

(** ** Regular expressions *)

(** What main.go uses of Go's [regexp] package: [regexp.Compile], which
    fails on a pattern with a syntax error, and the method
    [ReplaceAll(src, repl)] of a compiled pattern.  The package is not part
    of the repository; the code is verified against this interface. *)
Class RegexpEngine : Type := {
  Regexp : Type;
  Compile : string -> option Regexp;
  ReplaceAll : Regexp -> list byte -> list byte -> list byte
}.

Module Literal.

Fixpoint hasPrefix (p s : list byte) : bool :=
  match p, s with
  | [], _ => true
  | _ :: _, [] => false
  | a :: p', b :: s' => Byte.eqb a b && hasPrefix p' s'
  end.

(** The leftmost occurrences of [pat] in [src] that do not overlap, each
    replaced by [repl]; [skip] counts the bytes of the occurrence just
    replaced that are still to be passed over. *)
Fixpoint replaceFrom (pat repl : list byte) (skip : nat) (src : list byte) : list byte :=
  match src with
  | [] => []
  | b :: src' =>
      match skip with
      | S k => replaceFrom pat repl k src'
      | O =>
          if hasPrefix pat src
          then repl ++ replaceFrom pat repl (Nat.pred (length pat)) src'
          else b :: replaceFrom pat repl O src'
      end
  end.

Definition replaceAll (pat repl src : list byte) : list byte :=
  replaceFrom pat repl O src.

(** The bytes with a meaning of their own in a pattern. *)
Definition isMeta (c : ascii) : bool :=
  existsb (Ascii.eqb c) (list_ascii_of_string "\.+*?()|[]{}^$").

Definition isRepetition (c : ascii) : bool :=
  existsb (Ascii.eqb c) (list_ascii_of_string "*+?").

Definition isDollar (b : byte) : bool := Byte.eqb b "$"%byte.

Definition isASCII (c : ascii) : bool := Z.of_nat (nat_of_ascii c) <? 128.

(** A pattern that is not empty and is made of ASCII characters none of
    which is a metacharacter: it matches exactly its own text. *)
Definition isLiteral (pattern : string) : bool :=
  match pattern with
  | EmptyString => false
  | _ => forallb (fun c => isASCII c && negb (isMeta c)) (list_ascii_of_string pattern)
  end.

(** A pattern that opens with a repetition operator, which has nothing to
    repeat. *)
Definition opensWithRepetition (pattern : string) : bool :=
  match pattern with
  | String c _ => isRepetition c
  | EmptyString => false
  end.

(** The engine that knows literal patterns only. *)
#[export] Instance engine : RegexpEngine := {
  Regexp := list byte;
  Compile pattern := if isLiteral pattern then Some (Text.bytes pattern) else None;
  ReplaceAll re src repl := replaceAll re repl src
}.

End Literal.

(** What the theorems about concrete patterns assume of an engine, as Go's
    package documents it: a pattern that opens with a repetition operator
    does not compile ("missing argument to repetition operator"); a literal
    pattern compiles, and with a replacement free of "$" (which would start
    a submatch reference) [ReplaceAll] replaces its leftmost non-overlapping
    occurrences by the replacement. *)
Class GoRegexp (E : RegexpEngine) : Prop := {
  compile_repetition : forall pattern,
    Literal.opensWithRepetition pattern = true -> Compile pattern = None;
  compile_literal : forall pattern,
    Literal.isLiteral pattern = true ->
    exists re, Compile pattern = Some re /\
      forall src repl, existsb Literal.isDollar repl = false ->
        ReplaceAll re src repl = Literal.replaceAll (Text.bytes pattern) repl src
}.

(** ** Headers *)

(** Go's [http.Header] is [map[string][]string]. *)
Abbreviation http_Header := (gmap string (list string)).

(** [h.Get(key)]: the first value stored under the key, "" when there is
    none.  [Get], [Set] and [Del] bring the key into canonical form first;
    the keys main.go and its tests pass ("Content-Encoding",
    "Content-Length", "Last-Modified") are in that form already. *)
Definition Get (key : string) (h : http_Header) : string :=
  match h !! key with
  | Some (v :: _) => v
  | _ => ""
  end.

Definition Set_ (key value : string) (h : http_Header) : http_Header :=
  <[key := [value]]> h.

Definition Del (key : string) (h : http_Header) : http_Header :=
  delete key h.

(** [for k, v := range src { dst[k] = v }]: every key of [src] replaces the
    entry of [dst]; the other entries of [dst] stay. *)
Definition copyHeader (src dst : http_Header) : http_Header := src ∪ dst.

(** ** The real response writer *)

(** The [http.ResponseWriter] the middleware is called with belongs to the
    host.  It is modelled by what the middleware can do to it: its header
    map, which [Header()] hands out and the caller updates in place, and the
    calls it receives, oldest first.  A [WriteHeader] call is logged with
    the header map as it stands at the call, which is what the sink sends.
    What a sink does of its own accord on these calls is not modelled. *)
Inductive SinkCall : Type :=
| CallWriteHeader (statusCode : Z) (header : http_Header)
| CallWrite (p : list byte)
| CallFlush
| CallHijack.

Record Sink : Type := {
  sinkHeader : http_Header;
  sinkCalls : list SinkCall;
  isFlusher : bool;     (* the sink implements http.Flusher *)
  isHijacker : bool     (* the sink implements http.Hijacker *)
}.

Definition newSink (h : http_Header) (flusher hijacker : bool) : Sink :=
  {| sinkHeader := h; sinkCalls := []; isFlusher := flusher; isHijacker := hijacker |}.

Definition sinkSetHeader (h : http_Header) (rw : Sink) : Sink :=
  {| sinkHeader := h; sinkCalls := sinkCalls rw;
     isFlusher := isFlusher rw; isHijacker := isHijacker rw |}.

Definition sinkCall (c : SinkCall) (rw : Sink) : Sink :=
  {| sinkHeader := sinkHeader rw; sinkCalls := sinkCalls rw ++ [c];
     isFlusher := isFlusher rw; isHijacker := isHijacker rw |}.

Definition sinkWriteHeader (statusCode : Z) (rw : Sink) : Sink :=
  sinkCall (CallWriteHeader statusCode (sinkHeader rw)) rw.

Definition sinkWrite (p : list byte) (rw : Sink) : Sink :=
  sinkCall (CallWrite p) rw.

(** ** The wrapping response writer *)

(** [responseWriter] of main.go.  [headerMap] is never nil here: ServeHTTP
    makes it, and a nil map reads like an empty one. *)
Record responseWriter : Type := {
  buffer : list byte;
  rwLastModified : bool;          (* the field lastModified *)
  headerMap : http_Header;
  headersSent : bool;
  code : Z;
  ResponseWriter : Sink
}.

Definition Header (r : responseWriter) : http_Header :=
  if headersSent r then sinkHeader (ResponseWriter r) else headerMap r.

Definition informational (statusCode : Z) : bool :=
  (100 <=? statusCode) && (statusCode <=? 199).

Definition WriteHeader (statusCode : Z) (r : responseWriter) : responseWriter :=
  if headersSent r then r
  else if informational statusCode then
    let rw := ResponseWriter r in
    let rw := sinkSetHeader (copyHeader (Header r) (sinkHeader rw)) rw in
    {| buffer := buffer r; rwLastModified := rwLastModified r;
       headerMap := headerMap r; headersSent := headersSent r; code := code r;
       ResponseWriter := sinkWriteHeader statusCode rw |}
  else
    let rw := ResponseWriter r in
    let rw := sinkSetHeader (copyHeader (Header r) (sinkHeader rw)) rw in
    let rw := sinkSetHeader (Del "Content-Length" (sinkHeader rw)) rw in
    {| buffer := buffer r; rwLastModified := rwLastModified r;
       headerMap := headerMap r; headersSent := true; code := statusCode;
       ResponseWriter := sinkWriteHeader statusCode rw |}.

Definition Write (p : list byte) (r : responseWriter) : responseWriter :=
  let r := if negb (headersSent r) then WriteHeader 200 r else r in
  {| buffer := buffer r ++ p; rwLastModified := rwLastModified r;
     headerMap := headerMap r; headersSent := headersSent r; code := code r;
     ResponseWriter := ResponseWriter r |}.

Definition withSink (rw : Sink) (r : responseWriter) : responseWriter :=
  {| buffer := buffer r; rwLastModified := rwLastModified r;
     headerMap := headerMap r; headersSent := headersSent r; code := code r;
     ResponseWriter := rw |}.

(** [Hijack] hands the call to the sink when the sink is a hijacker and
    fails otherwise; the boolean is [err == nil]. *)
Definition Hijack (r : responseWriter) : bool * responseWriter :=
  if isHijacker (ResponseWriter r)
  then (true, withSink (sinkCall CallHijack (ResponseWriter r)) r)
  else (false, r).

Definition Flush (r : responseWriter) : responseWriter :=
  if isFlusher (ResponseWriter r)
  then withSink (sinkCall CallFlush (ResponseWriter r)) r
  else r.

(** ** The next handler *)

(** A handler sees the wrapper through the [http.ResponseWriter] interface
    (and [http.Flusher], [http.Hijacker]): whatever it computes, on one
    request it performs a sequence of these calls.  [EditHeader f] is
    [h := rw.Header()] followed by an update [f] of the map [h] in place;
    before the status is committed that map is the wrapper's own, afterwards
    it is the sink's.  (An alias of the private map that is kept across the
    commit is dead: nothing reads the private map afterwards.  The values of
    a header are lists here; writing into a value slice in place is not
    modelled.) *)
Inductive Call : Type :=
| EditHeader (f : http_Header -> http_Header)
| CallerWriteHeader (statusCode : Z)
| CallerWrite (p : list byte)
| CallerFlush
| CallerHijack.

Definition editHeader (f : http_Header -> http_Header) (r : responseWriter) : responseWriter :=
  if headersSent r
  then withSink (sinkSetHeader (f (sinkHeader (ResponseWriter r))) (ResponseWriter r)) r
  else {| buffer := buffer r; rwLastModified := rwLastModified r;
          headerMap := f (headerMap r); headersSent := headersSent r;
          code := code r; ResponseWriter := ResponseWriter r |}.

Definition call (c : Call) (r : responseWriter) : responseWriter :=
  match c with
  | EditHeader f => editHeader f r
  | CallerWriteHeader statusCode => WriteHeader statusCode r
  | CallerWrite p => Write p r
  | CallerFlush => Flush r
  | CallerHijack => snd (Hijack r)
  end.

Definition run (calls : list Call) (r : responseWriter) : responseWriter :=
  fold_left (fun r c => call c r) calls r.

Record Request : Type := { Method : string; URL : string }.

(** [http.Handler]: the calls the handler makes on the writer it is given. *)
Definition Handler : Type := Request -> list Call.

(** ** The middleware *)

(** The configuration as the host hands it over. *)
Record Rewrite : Type := { Regex : string; Replacement : string }.
Record Response : Type := { Rewrites : list Rewrite; Status : string }.
Record Config : Type := { Responses : list Response }.

Definition CreateConfig : Config := {| Responses := [] |}.

Section Middleware.

Context {E : RegexpEngine}.
Variable rejectInverted : bool.

Record parsedRewrite : Type := {
  regex : Regexp;
  replacement : list byte
}.

Record parsedResponse : Type := {
  rewrites : list parsedRewrite;
  status : HTTPCodeRanges
}.

(** The struct [responsebodyrewrite]; its logger only prints. *)
Record responsebodyrewrite : Type := {
  next : Handler;
  name : string;
  responses : list parsedResponse;
  lastModified : bool
}.

(** The body of the inner loop of [New]. *)
Definition compileRewrite (rewriteConfig : Rewrite) : result parsedRewrite :=
  match Compile (Regex rewriteConfig) with
  | None => Err (CompileError (Regex rewriteConfig))
  | Some re =>
      Ok {| regex := re; replacement := Text.bytes (Replacement rewriteConfig) |}
  end.

(** The body of the outer loop of [New]. *)
Definition parseResponse (response : Response) : result parsedResponse :=
  httpCodeRanges <-! NewHTTPCodeRanges rejectInverted [Status response];
  parsed <-! mapM compileRewrite (Rewrites response);
  Ok {| rewrites := parsed; status := httpCodeRanges |}.

Definition New (next : Handler) (config : Config) (name : string)
  : result responsebodyrewrite :=
  parsedResponses <-! mapM parseResponse (Responses config);
  Ok {| responses := parsedResponses; next := next; name := name;
        lastModified := true |}.

(** [for _, rewrite := range response.rewrites
      { bodyBytes = rewrite.regex.ReplaceAll(bodyBytes, rewrite.replacement) }] *)
Definition applyRewrites (rws : list parsedRewrite) (bodyBytes : list byte) : list byte :=
  fold_left (fun body rewrite => ReplaceAll (regex rewrite) body (replacement rewrite))
            rws bodyBytes.

(** The loop over [r.responses] in [ServeHTTP]: [continue] while the
    status does not contain the code, rewrite and [break] at the first
    that does. *)
Fixpoint rewriteBody (rs : list parsedResponse) (statusCode : Z)
         (bodyBytes : list byte) : list byte :=
  match rs with
  | [] => bodyBytes
  | response :: rs' =>
      if negb (Contains (status response) statusCode)
      then rewriteBody rs' statusCode bodyBytes
      else applyRewrites (rewrites response) bodyBytes
  end.

Definition newResponseWriter (r : responsebodyrewrite) (rw : Sink) : responseWriter :=
  {| buffer := []; rwLastModified := lastModified r; headerMap := ∅;
     headersSent := false; code := 200; ResponseWriter := rw |}.

(** The wrapper as the next handler leaves it. *)
Definition served (r : responsebodyrewrite) (rw : Sink) (req : Request) : responseWriter :=
  run (next r req) (newResponseWriter r rw).

(** [ServeHTTP].  [rw] and [wrappedWriter.ResponseWriter] are the same
    object, so both writes go to the sink as the handler left it.  A write
    that fails is only logged. *)
Definition ServeHTTP (r : responsebodyrewrite) (rw : Sink) (req : Request) : Sink :=
  let wrappedWriter := served r rw req in
  let rw := ResponseWriter wrappedWriter in
  let bodyBytes := buffer wrappedWriter in
  let contentEncoding := Get "Content-Encoding" (Header wrappedWriter) in
  if negb (String.eqb contentEncoding "") && negb (String.eqb contentEncoding "identity")
  then sinkWrite bodyBytes rw
  else
    let bodyBytes := rewriteBody (responses r) (code wrappedWriter) bodyBytes in
    sinkWrite bodyBytes rw.

(** What [ServeHTTP] passes to [rw.Write], on either path. *)
Definition finalBody (r : responsebodyrewrite) (wrappedWriter : responseWriter) : list byte :=
  let contentEncoding := Get "Content-Encoding" (Header wrappedWriter) in
  if negb (String.eqb contentEncoding "") && negb (String.eqb contentEncoding "identity")
  then buffer wrappedWriter
  else rewriteBody (responses r) (code wrappedWriter) (buffer wrappedWriter).

(** The rule the spec names as governing a response: the first whose
    range contains the code. *)
Definition firstMatch (rs : list parsedResponse) (statusCode : Z) : option parsedResponse :=
  find (fun response => Contains (status response) statusCode) rs.

End Middleware.

(** ** The earlier revision src/unnamed/part_001 *)

(** main.go before the Content-Encoding test was added.  Its wrapper holds
    the parsed entries of the middleware (the field [responses], here
    [rwResponses]) and deletes Content-Length at the commit only when one of
    them contains the status; it does not copy the private headers at the
    commit.  [Header], [Write], [Hijack] and [Flush] read as in main.go.
    The middleware is the struct of main.go, whose [lastModified] this
    revision does not have and does not read. *)
Module Part001.

Section Revision.

Context {E : RegexpEngine}.

Record responseWriter : Type := {
  buffer : list byte;
  headerMap : http_Header;
  headersSent : bool;
  code : Z;
  ResponseWriter : Sink;
  rwResponses : list parsedResponse
}.

Definition Header (rw : responseWriter) : http_Header :=
  if headersSent rw then sinkHeader (ResponseWriter rw) else headerMap rw.

Definition withSink (sink : Sink) (rw : responseWriter) : responseWriter :=
  {| buffer := buffer rw; headerMap := headerMap rw; headersSent := headersSent rw;
     code := code rw; ResponseWriter := sink; rwResponses := rwResponses rw |}.

(** [for _, response := range rw.responses
      { if !response.status.Contains(statusCode) { continue }; bodyRewrited = true }] *)
Definition bodyRewrited (rs : list parsedResponse) (statusCode : Z) : bool :=
  fold_left (fun rewrited response =>
               if negb (Contains (status response) statusCode) then rewrited else true)
            rs false.

Definition WriteHeader (statusCode : Z) (rw : responseWriter) : responseWriter :=
  if headersSent rw then rw
  else if informational statusCode then
    let sink := ResponseWriter rw in
    let sink := sinkSetHeader (copyHeader (Header rw) (sinkHeader sink)) sink in
    withSink (sinkWriteHeader statusCode sink) rw
  else
    let sink := ResponseWriter rw in
    let sink := if bodyRewrited (rwResponses rw) statusCode
                then sinkSetHeader (Del "Content-Length" (sinkHeader sink)) sink
                else sink in
    {| buffer := buffer rw; headerMap := headerMap rw; headersSent := true;
       code := statusCode; ResponseWriter := sinkWriteHeader statusCode sink;
       rwResponses := rwResponses rw |}.

Definition Write (p : list byte) (rw : responseWriter) : responseWriter :=
  let rw := if negb (headersSent rw) then WriteHeader 200 rw else rw in
  {| buffer := buffer rw ++ p; headerMap := headerMap rw; headersSent := headersSent rw;
     code := code rw; ResponseWriter := ResponseWriter rw;
     rwResponses := rwResponses rw |}.

Definition Hijack (rw : responseWriter) : bool * responseWriter :=
  if isHijacker (ResponseWriter rw)
  then (true, withSink (sinkCall CallHijack (ResponseWriter rw)) rw)
  else (false, rw).

Definition Flush (rw : responseWriter) : responseWriter :=
  if isFlusher (ResponseWriter rw)
  then withSink (sinkCall CallFlush (ResponseWriter rw)) rw
  else rw.

Definition editHeader (f : http_Header -> http_Header) (rw : responseWriter) : responseWriter :=
  if headersSent rw
  then withSink (sinkSetHeader (f (sinkHeader (ResponseWriter rw))) (ResponseWriter rw)) rw
  else {| buffer := buffer rw; headerMap := f (headerMap rw);
          headersSent := headersSent rw; code := code rw;
          ResponseWriter := ResponseWriter rw; rwResponses := rwResponses rw |}.

Definition call (c : Call) (rw : responseWriter) : responseWriter :=
  match c with
  | EditHeader f => editHeader f rw
  | CallerWriteHeader statusCode => WriteHeader statusCode rw
  | CallerWrite p => Write p rw
  | CallerFlush => Flush rw
  | CallerHijack => snd (Hijack rw)
  end.

Definition run (calls : list Call) (rw : responseWriter) : responseWriter :=
  fold_left (fun rw c => call c rw) calls rw.

(** The wrapper of a request, handed to the next handler, as it comes back. *)
Definition served (r : responsebodyrewrite) (rw : Sink) (req : Request) : responseWriter :=
  run (next r req)
      {| buffer := []; headerMap := ∅; headersSent := false; code := 200;
         ResponseWriter := rw; rwResponses := responses r |}.

Definition ServeHTTP (r : responsebodyrewrite) (rw : Sink) (req : Request) : Sink :=
  let wrappedWriter := served r rw req in
  sinkWrite (rewriteBody (responses r) (code wrappedWriter) (buffer wrappedWriter))
            (ResponseWriter wrappedWriter).

End Revision.

End Part001.

(** * What the statements speak of *)

(** The status writes a sink has received that are not informational, with
    the header map each was sent with. *)
Definition commits (calls : list SinkCall) : list (Z * http_Header) :=
  omap (fun c => match c with
                 | CallWriteHeader statusCode h =>
                     if informational statusCode then None else Some (statusCode, h)
                 | _ => None
                 end) calls.

(** What the final [rw.Write] of a request was called with. *)
Definition bodyWritten (rw : Sink) : option (list byte) :=
  match last (sinkCalls rw) with
  | Some (CallWrite p) => Some p
  | _ => None
  end.

(** What holds of the wrapper between any two calls of the handler: before
    the commit the sink has received no final status and the captured code
    is still the 200 it was created with; after it the sink has received
    exactly one, the captured code, sent without Content-Length. *)
Definition wrapperInv (r : responseWriter) : Prop :=
  if headersSent r
  then exists h, commits (sinkCalls (ResponseWriter r)) = [(code r, h)] /\
                 h !! "Content-Length" = None
  else commits (sinkCalls (ResponseWriter r)) = [] /\ code r = 200.

(** Between two calls of the handler: no final status at the sink before the
    commit; after it exactly the captured one, sent without Content-Length
    when an entry contains it. *)
Definition part001Inv {E : RegexpEngine} (rw : Part001.responseWriter) : Prop :=
  if Part001.headersSent rw
  then exists h,
      commits (sinkCalls (Part001.ResponseWriter rw)) = [(Part001.code rw, h)] /\
      (Part001.bodyRewrited (Part001.rwResponses rw) (Part001.code rw) = true ->
       h !! "Content-Length" = None)
  else commits (sinkCalls (Part001.ResponseWriter rw)) = [].

(** Whether the handler writes a status that is not informational. *)
Definition setsStatus (calls : list Call) : bool :=
  existsb (fun c => match c with
                    | CallerWriteHeader statusCode => negb (informational statusCode)
                    | _ => false
                    end) calls.

(** A call that does not put [key] into a header map that lacks it. *)
Definition keepsAbsent (key : string) (c : Call) : Prop :=
  match c with
  | EditHeader f => forall h : http_Header, h !! key = None -> f h !! key = None
  | _ => True
  end.

(** The handler does not put [key] back once the status is committed: every
    call it makes on a committed wrapper keeps the key absent. *)
Fixpoint leavesAbsent (key : string) (calls : list Call) (r : responseWriter) : Prop :=
  match calls with
  | [] => True
  | c :: calls' =>
      (headersSent r = true -> keepsAbsent key c) /\ leavesAbsent key calls' (call c r)
  end.

(** * The requests of main_test.go *)

Module Tests.

(** Every row of TestServeHTTP has this body, of 18 bytes. *)
Definition resBody : string := "foo is the new bar".

(** The handler of TestServeHTTP: it sets three headers, among them the
    length of the body, writes the status and prints the body. *)
Definition nextHandler (contentEncoding : string) (httpStatus : Z) : Handler :=
  fun _ =>
    [ EditHeader (Set_ "Content-Encoding" contentEncoding);
      EditHeader (Set_ "Last-Modified" "Thu, 02 Jun 2016 06:01:08 GMT");
      EditHeader (Set_ "Content-Length" "18");
      CallerWriteHeader httpStatus;
      CallerWrite (Text.bytes resBody) ].

(** [httptest.NewRecorder()]: no header yet; a recorder can flush. *)
Definition recorder : Sink := newSink ∅ true false.

Definition request : Request := {| Method := "GET"; URL := "/" |}.

Definition fooBar : Rewrite := {| Regex := "foo"; Replacement := "bar" |}.
Definition barFoo : Rewrite := {| Regex := "bar"; Replacement := "foo" |}.

(** "should replace foo by bar" *)
Definition replaceFoo : Config :=
  {| Responses := [ {| Rewrites := [fooBar]; Status := "200-299" |} ] |}.

(** "should replace foo by bar, then by foo" *)
Definition replaceFooThenBar : Config :=
  {| Responses := [ {| Rewrites := [fooBar; barFoo]; Status := "200-299" |} ] |}.

(** Two entries that both contain 200; only the first may rewrite. *)
Definition overlapping : Config :=
  {| Responses := [ {| Rewrites := [fooBar]; Status := "200-299" |};
                    {| Rewrites := [barFoo]; Status := "200" |} ] |}.

(** A middleware of the literal engine, built by [New]; a configuration that
    [New] refuses gives the middleware without rules. *)
Definition middleware (next : Handler) (config : Config) : responsebodyrewrite :=
  match New (E := Literal.engine) false next config "rewriteBody" with
  | Ok r => r
  | Err _ => {| next := next; name := "rewriteBody"; responses := []; lastModified := true |}
  end.

(** The configurations of TestNew in main_test.go that must be refused. *)
Definition badRegex : Config :=
  {| Responses := [ {| Rewrites := [ {| Regex := "*"; Replacement := "bar" |} ];
                       Status := "200-299" |} ] |}.

Definition badStatus : Config :=
  {| Responses := [ {| Rewrites := [ {| Regex := "*"; Replacement := "bar" |} ];
                       Status := "200,299foo" |} ] |}.

(** A handler that writes 404, then 200, then the body. *)
Definition writesTwice : Handler :=
  fun _ => [ CallerWriteHeader 404; CallerWriteHeader 200;
             CallerWrite (Text.bytes resBody) ].

(** A handler that sets a header and writes the body without a status. *)
Definition writesBodyOnly : Handler :=
  fun _ => [ EditHeader (Set_ "Last-Modified" "Thu, 02 Jun 2016 06:01:08 GMT");
             CallerWrite (Text.bytes resBody) ].

(** A handler that announces the length, sends an early hint and then the
    response. *)
Definition hintsThenWrites (httpStatus : Z) : Handler :=
  fun _ => [ EditHeader (Set_ "Content-Length" "18");
             CallerWriteHeader 103; CallerWriteHeader httpStatus;
             CallerWrite (Text.bytes resBody) ].

(** A handler that sends two early hints before the response. *)
Definition hintsTwice : Handler :=
  fun _ => [ EditHeader (Set_ "Link" "</style.css>; rel=preload");
             CallerWriteHeader 103; CallerWriteHeader 103;
             EditHeader (Set_ "Content-Length" "18");
             CallerWriteHeader 200; CallerWrite (Text.bytes resBody) ].

End Tests.

(** * Properties *)

(** ** Status ranges *)

Lemma Contains_cons low high (h : HTTPCodeRanges) statusCode :
  Contains ((low, high) :: h) statusCode =
  ((low <=? statusCode) && (statusCode <=? high)) || Contains h statusCode.
Proof. simpl. by destruct ((low <=? statusCode) && (statusCode <=? high)). Qed.

Lemma Contains_spec (h : HTTPCodeRanges) statusCode :
  Contains h statusCode = true <->
  exists low high, (low, high) ∈ h /\ low <= statusCode <= high.
Proof.
  induction h as [|[low high] h IH].
  - split; [done|]. intros (? & ? & Hin & _). by apply not_elem_of_nil in Hin.
  - rewrite Contains_cons, orb_true_iff, andb_true_iff, IH, !Z.leb_le. split.
    + intros [Hhere|(l & u & Hin & Hb)].
      * exists low, high. split; [apply list_elem_of_here|lia].
      * exists l, u. split; [by apply list_elem_of_further|done].
    + intros (l & u & Hin & Hb). apply elem_of_cons in Hin as [Heq|Hin].
      * left. injection Heq as -> ->. lia.
      * right. by exists l, u.
Qed.

(** The rows of TestNewHTTPCodeRanges in main_test.go. *)
Example NewHTTPCodeRanges_tests rejectInverted :
  NewHTTPCodeRanges rejectInverted ["200"] = Ok [(200, 200)] /\
  NewHTTPCodeRanges rejectInverted ["200-299"] = Ok [(200, 299)] /\
  NewHTTPCodeRanges rejectInverted ["200-299"; "400-499"] = Ok [(200, 299); (400, 499)] /\
  NewHTTPCodeRanges rejectInverted ["200-299"; "400"; "450-499"]
    = Ok [(200, 299); (400, 400); (450, 499)] /\
  isErr (NewHTTPCodeRanges rejectInverted ["200-abc"]) = true /\
  isErr (NewHTTPCodeRanges rejectInverted ["abc-200"]) = true.
Proof. by destruct rejectInverted. Qed.

(** C5. The ranges built from "200-299,400-499", given as one string or as
    its two blocks, are 200 to 299 and 400 to 499; they contain a status
    code exactly when it lies in one of the two, so 200, 299, 400 and 499
    are inside and 199, 300 and 500 are outside.  More generally, ranges
    contain a code exactly when one of the stored ranges holds it between
    its inclusive bounds. *)
Theorem Contains_ranges_200_299_400_499 :
  forall rejectInverted : bool,
  exists h : HTTPCodeRanges,
    NewHTTPCodeRanges rejectInverted ["200-299,400-499"] = Ok h /\
    NewHTTPCodeRanges rejectInverted ["200-299"; "400-499"] = Ok h /\
    (forall c : Z, Contains h c = true <-> 200 <= c <= 299 \/ 400 <= c <= 499) /\
    Forall (fun c => Contains h c = true) [200; 299; 400; 499] /\
    Forall (fun c => Contains h c = false) [199; 300; 500] /\
    (forall (h' : HTTPCodeRanges) (c : Z),
        Contains h' c = true <->
        exists low high, (low, high) ∈ h' /\ low <= c <= high).
Proof.
  intros rejectInverted. exists [(200, 299); (400, 499)].
  split; [by destruct rejectInverted|].
  split; [by destruct rejectInverted|].
  split.
  { intros c. rewrite !Contains_cons. simpl.
    rewrite orb_false_r, orb_true_iff, !andb_true_iff, !Z.leb_le. tauto. }
  split; [by repeat constructor|].
  split; [by repeat constructor|].
  apply Contains_spec.
Qed.

(** ** Results *)

Lemma mapM_Ok {A B : Type} (f : A -> result B) (xs : list A) (ys : list B) :
  mapM f xs = Ok ys <-> Forall2 (fun x y => f x = Ok y) xs ys.
Proof.
  revert ys. induction xs as [|x xs IH]; intros ys; simpl.
  - split.
    + intros [= <-]. constructor.
    + intros H. by inversion H.
  - destruct (f x) as [y|e] eqn:Hfx; simpl.
    + destruct (mapM f xs) as [ys'|e] eqn:Hxs; simpl.
      * split.
        -- intros [= <-]. constructor; [done|]. by apply IH.
        -- intros H. inversion H as [|? y' ? ys'' Hy Hys]; subst.
           apply IH in Hys. congruence.
      * split; [done|]. intros H. inversion H as [|? y' ? ys'' Hy Hys]; subst.
        apply IH in Hys. congruence.
    + split; [done|]. intros H. inversion H; subst. congruence.
Qed.

Lemma mapM_Err {A B : Type} (f : A -> result B) (xs : list A) :
  isErr (mapM f xs) = true <-> exists x, x ∈ xs /\ isErr (f x) = true.
Proof.
  induction xs as [|x xs IH]; simpl.
  - split; [done|]. intros (? & Hin & _). by apply not_elem_of_nil in Hin.
  - destruct (f x) as [y|e] eqn:Hfx; simpl.
    + destruct (mapM f xs) as [ys|e] eqn:Hxs; simpl in *.
      * split; [done|]. intros (x' & Hin & Herr).
        apply elem_of_cons in Hin as [->|Hin].
        -- by rewrite Hfx in Herr.
        -- apply IH. eauto.
      * split; [|done]. intros _. destruct IH as [IH _].
        destruct (IH eq_refl) as (x' & Hin & Herr).
        exists x'. split; [by apply list_elem_of_further|done].
    + split; [|done]. intros _. exists x. split; [apply list_elem_of_here|].
      by rewrite Hfx.
Qed.

(** ** The rewrite loop *)

Section RewriteFacts.

Context {E : RegexpEngine}.

Lemma applyRewrites_cons (rewrite : parsedRewrite) rws bodyBytes :
  applyRewrites (rewrite :: rws) bodyBytes =
  applyRewrites rws (ReplaceAll (regex rewrite) bodyBytes (replacement rewrite)).
Proof. reflexivity. Qed.

Lemma applyRewrites_app (rws1 rws2 : list parsedRewrite) bodyBytes :
  applyRewrites (rws1 ++ rws2) bodyBytes =
  applyRewrites rws2 (applyRewrites rws1 bodyBytes).
Proof. apply fold_left_app. Qed.

Lemma rewriteBody_firstMatch (rs : list parsedResponse) statusCode bodyBytes :
  rewriteBody rs statusCode bodyBytes =
  match firstMatch rs statusCode with
  | Some response => applyRewrites (rewrites response) bodyBytes
  | None => bodyBytes
  end.
Proof.
  induction rs as [|response rs IH]; simpl; [done|].
  by destruct (Contains (status response) statusCode).
Qed.

Lemma firstMatch_split (pre post : list parsedResponse) response statusCode :
  Forall (fun p => Contains (status p) statusCode = false) pre ->
  Contains (status response) statusCode = true ->
  firstMatch (pre ++ response :: post) statusCode = Some response.
Proof.
  intros Hpre Hhere. induction Hpre as [|p pre Hp _ IH]; simpl.
  - by rewrite Hhere.
  - by rewrite Hp.
Qed.

Lemma firstMatch_None (rs : list parsedResponse) statusCode :
  Forall (fun p => Contains (status p) statusCode = false) rs ->
  firstMatch rs statusCode = None.
Proof.
  intros Hrs. induction Hrs as [|p rs Hp _ IH]; simpl; [done|]. by rewrite Hp.
Qed.

Lemma firstMatch_Some (rs : list parsedResponse) response statusCode :
  firstMatch rs statusCode = Some response ->
  exists pre post,
    rs = pre ++ response :: post /\
    Forall (fun p => Contains (status p) statusCode = false) pre /\
    Contains (status response) statusCode = true.
Proof.
  induction rs as [|p rs IH]; simpl; [done|].
  destruct (Contains (status p) statusCode) eqn:Hp.
  - intros [= <-]. by exists [], rs.
  - intros Hfind. destruct (IH Hfind) as (pre & post & -> & Hpre & Hhere).
    exists (p :: pre), post. split; [done|]. split; [by constructor|done].
Qed.

(** [ServeHTTP] ends with one write to the sink, on either path. *)
Lemma ServeHTTP_finalBody (r : responsebodyrewrite) rw req :
  ServeHTTP r rw req =
  sinkWrite (finalBody r (served r rw req)) (ResponseWriter (served r rw req)).
Proof.
  unfold ServeHTTP, finalBody. cbn zeta.
  by destruct (negb (String.eqb _ "") && negb (String.eqb _ "identity")).
Qed.

(** The sink after [ServeHTTP]: what the handler left, and one more write. *)
Lemma ServeHTTP_calls (r : responsebodyrewrite) rw req :
  sinkCalls (ServeHTTP r rw req) =
  sinkCalls (ResponseWriter (served r rw req)) ++ [CallWrite (finalBody r (served r rw req))].
Proof. by rewrite ServeHTTP_finalBody. Qed.

Lemma ServeHTTP_header (r : responsebodyrewrite) rw req :
  sinkHeader (ServeHTTP r rw req) = sinkHeader (ResponseWriter (served r rw req)).
Proof. by rewrite ServeHTTP_finalBody. Qed.

Lemma bodyWritten_ServeHTTP (r : responsebodyrewrite) rw req :
  bodyWritten (ServeHTTP r rw req) = Some (finalBody r (served r rw req)).
Proof. unfold bodyWritten. by rewrite ServeHTTP_calls, last_snoc. Qed.

Lemma finalBody_encoded (r : responsebodyrewrite) w :
  Get "Content-Encoding" (Header w) <> "" ->
  Get "Content-Encoding" (Header w) <> "identity" ->
  finalBody r w = buffer w.
Proof.
  intros Hne Hni. unfold finalBody.
  destruct (String.eqb_spec (Get "Content-Encoding" (Header w)) ""); [done|].
  by destruct (String.eqb_spec (Get "Content-Encoding" (Header w)) "identity").
Qed.

Lemma finalBody_identity (r : responsebodyrewrite) w :
  Get "Content-Encoding" (Header w) = "" \/
  Get "Content-Encoding" (Header w) = "identity" ->
  finalBody r w = rewriteBody (responses r) (code w) (buffer w).
Proof. intros [Hce|Hce]; unfold finalBody; by rewrite Hce. Qed.

Lemma Get_absent key (h : http_Header) : h !! key = None -> Get key h = "".
Proof. intros Hk. unfold Get. by rewrite Hk. Qed.

End RewriteFacts.

(** ** The wrapping response writer *)

Lemma commits_app (l1 l2 : list SinkCall) :
  commits (l1 ++ l2) = commits l1 ++ commits l2.
Proof. apply omap_app. Qed.

Lemma commits_snoc_WriteHeader calls statusCode h :
  commits (calls ++ [CallWriteHeader statusCode h]) =
  commits calls ++ (if informational statusCode then [] else [(statusCode, h)]).
Proof. rewrite commits_app. simpl. by destruct (informational statusCode). Qed.

Lemma WriteHeader_sent statusCode r :
  headersSent r = true -> WriteHeader statusCode r = r.
Proof. intros Hsent. unfold WriteHeader. by rewrite Hsent. Qed.

(** The informational branch of [WriteHeader]. *)
Lemma WriteHeader_informational statusCode r :
  headersSent r = false -> informational statusCode = true ->
  WriteHeader statusCode r =
  withSink (sinkWriteHeader statusCode
              (sinkSetHeader (copyHeader (headerMap r) (sinkHeader (ResponseWriter r)))
                             (ResponseWriter r))) r.
Proof.
  intros Hsent Hinfo. unfold WriteHeader, Header, withSink.
  by rewrite Hsent, Hinfo.
Qed.

(** The committing branch of [WriteHeader]. *)
Lemma WriteHeader_commit statusCode r :
  headersSent r = false -> informational statusCode = false ->
  WriteHeader statusCode r =
  {| buffer := buffer r; rwLastModified := rwLastModified r;
     headerMap := headerMap r; headersSent := true; code := statusCode;
     ResponseWriter :=
       sinkWriteHeader statusCode
         (sinkSetHeader
            (Del "Content-Length" (copyHeader (headerMap r) (sinkHeader (ResponseWriter r))))
            (ResponseWriter r)) |}.
Proof.
  intros Hsent Hinfo. unfold WriteHeader, Header.
  by rewrite Hsent, Hinfo.
Qed.

Lemma Del_absent key (h : http_Header) : Del key h !! key = None.
Proof. apply lookup_delete_eq. Qed.

Lemma Write_sent p r :
  headersSent r = true -> Write p r =
  {| buffer := buffer r ++ p; rwLastModified := rwLastModified r;
     headerMap := headerMap r; headersSent := headersSent r; code := code r;
     ResponseWriter := ResponseWriter r |}.
Proof. intros Hsent. unfold Write. rewrite Hsent. simpl. by rewrite Hsent. Qed.

Lemma Write_unsent p r :
  headersSent r = false -> Write p r =
  {| buffer := buffer r ++ p; rwLastModified := rwLastModified r;
     headerMap := headerMap r; headersSent := true; code := 200;
     ResponseWriter :=
       sinkWriteHeader 200
         (sinkSetHeader
            (Del "Content-Length" (copyHeader (headerMap r) (sinkHeader (ResponseWriter r))))
            (ResponseWriter r)) |}.
Proof.
  intros Hsent. unfold Write. rewrite Hsent. simpl.
  by rewrite (WriteHeader_commit 200 r Hsent eq_refl).
Qed.

Lemma run_app calls1 calls2 r : run (calls1 ++ calls2) r = run calls2 (run calls1 r).
Proof. apply fold_left_app. Qed.

Lemma run_cons c calls r : run (c :: calls) r = run calls (call c r).
Proof. reflexivity. Qed.

Lemma wrapperInv_call c r : wrapperInv r -> wrapperInv (call c r).
Proof.
  unfold wrapperInv. intros Hinv. destruct c as [f|statusCode|p| |]; cbn [call].
  - unfold editHeader. by destruct (headersSent r) eqn:Hsent; simpl; rewrite ?Hsent.
  - destruct (headersSent r) eqn:Hsent.
    + by rewrite WriteHeader_sent, Hsent.
    + destruct Hinv as [Hnone Hcode].
      destruct (informational statusCode) eqn:Hinfo.
      * rewrite WriteHeader_informational by done. simpl. rewrite Hsent.
        by rewrite commits_snoc_WriteHeader, Hinfo, Hnone.
      * rewrite WriteHeader_commit by done. simpl.
        rewrite commits_snoc_WriteHeader, Hinfo, Hnone. simpl.
        eexists. split; [done|]. apply Del_absent.
  - destruct (headersSent r) eqn:Hsent.
    + rewrite Write_sent by done. simpl. by rewrite Hsent.
    + rewrite Write_unsent by done. simpl. destruct Hinv as [Hnone Hcode].
      rewrite commits_snoc_WriteHeader, Hnone. simpl.
      eexists. split; [done|]. apply Del_absent.
  - unfold Flush. destruct (isFlusher (ResponseWriter r)); [|done]. simpl.
    rewrite commits_app. simpl. rewrite app_nil_r. done.
  - unfold Hijack. destruct (isHijacker (ResponseWriter r)); [|done]. simpl.
    rewrite commits_app. simpl. rewrite app_nil_r. done.
Qed.

Lemma wrapperInv_run calls r : wrapperInv r -> wrapperInv (run calls r).
Proof.
  revert r. induction calls as [|c calls IH]; intros r Hinv; [done|].
  rewrite run_cons. apply IH. by apply wrapperInv_call.
Qed.

Lemma wrapperInv_new {E : RegexpEngine} (m : responsebodyrewrite) h flusher hijacker :
  wrapperInv (newResponseWriter m (newSink h flusher hijacker)).
Proof. by split. Qed.

Lemma wrapperInv_served {E : RegexpEngine} (m : responsebodyrewrite) h flusher hijacker req :
  wrapperInv (served m (newSink h flusher hijacker) req).
Proof. apply wrapperInv_run, wrapperInv_new. Qed.

(** ** What ServeHTTP writes *)

(** C1. When the Content-Encoding of the response is absent, empty or
    "identity", the body written to the real sink is the buffered body
    rewritten by the rewrites of the first configured entry whose ranges
    contain the captured status code: whatever entries follow that one are
    not applied, whether they contain the code or not; and when no entry
    contains the code, the body written is the buffered body itself. *)
Theorem ServeHTTP_rewrites_by_first_match :
  forall (E : RegexpEngine) (r : responsebodyrewrite) (rw : Sink) (req : Request),
    let w := served r rw req in
    Header w !! "Content-Encoding" = None \/
    Get "Content-Encoding" (Header w) = "" \/
    Get "Content-Encoding" (Header w) = "identity" ->
    bodyWritten (ServeHTTP r rw req) =
      Some (match firstMatch (responses r) (code w) with
            | Some response => applyRewrites (rewrites response) (buffer w)
            | None => buffer w
            end) /\
    (forall pre response post,
        responses r = pre ++ response :: post ->
        Forall (fun p => Contains (status p) (code w) = false) pre ->
        Contains (status response) (code w) = true ->
        bodyWritten (ServeHTTP r rw req) =
          Some (applyRewrites (rewrites response) (buffer w))) /\
    (Forall (fun p => Contains (status p) (code w) = false) (responses r) ->
     bodyWritten (ServeHTTP r rw req) = Some (buffer w)).
Proof.
  intros E r rw req w Hce.
  assert (Hbody : bodyWritten (ServeHTTP r rw req) =
                  Some (rewriteBody (responses r) (code w) (buffer w))).
  { rewrite bodyWritten_ServeHTTP. f_equal. apply finalBody_identity.
    destruct Hce as [Habsent|[Hempty|Hid]]; [left|by left|by right].
    by apply Get_absent. }
  rewrite Hbody, rewriteBody_firstMatch. split; [done|]. split.
  - intros pre response post -> Hpre Hhere. by rewrite firstMatch_split.
  - intros Hnone. by rewrite firstMatch_None.
Qed.

Lemma ServeHTTP_rewrites_by_first_match_witness :
  Get "Content-Encoding"
      (Header (served (Tests.middleware (Tests.nextHandler "" 200) Tests.overlapping)
                      Tests.recorder Tests.request)) = "" /\
  bodyWritten (ServeHTTP (Tests.middleware (Tests.nextHandler "" 200) Tests.overlapping)
                         Tests.recorder Tests.request)
    = Some (Text.bytes "bar is the new bar") /\
  bodyWritten (ServeHTTP (Tests.middleware (Tests.nextHandler "identity" 404)
                                           Tests.replaceFoo)
                         Tests.recorder Tests.request)
    = Some (Text.bytes "foo is the new bar").
Proof.
  split; [reflexivity|]. split.
  - destruct (ServeHTTP_rewrites_by_first_match Literal.engine
                (Tests.middleware (Tests.nextHandler "" 200) Tests.overlapping)
                Tests.recorder Tests.request (or_intror (or_introl eq_refl)))
      as (_ & Hfirst & _).
    rewrite (Hfirst [] _ _ eq_refl); [reflexivity|constructor|reflexivity].
  - destruct (ServeHTTP_rewrites_by_first_match Literal.engine
                (Tests.middleware (Tests.nextHandler "identity" 404) Tests.replaceFoo)
                Tests.recorder Tests.request (or_intror (or_intror eq_refl)))
      as (_ & _ & Hnone).
    rewrite Hnone; [reflexivity|]. repeat constructor.
Defined.

(** C2. When the Content-Encoding of the response is present and is neither
    empty nor "identity", the buffered body goes to the real sink as it is,
    whatever the configured entries and the status code are; when it is
    "identity" or absent, the body written is the one the rewrite loop
    yields. *)
Theorem ServeHTTP_skips_encoded_body :
  forall (E : RegexpEngine) (r : responsebodyrewrite) (rw : Sink) (req : Request),
    let w := served r rw req in
    let contentEncoding := Get "Content-Encoding" (Header w) in
    (contentEncoding <> "" -> contentEncoding <> "identity" ->
     is_Some (Header w !! "Content-Encoding") /\
     bodyWritten (ServeHTTP r rw req) = Some (buffer w)) /\
    (contentEncoding = "identity" \/ Header w !! "Content-Encoding" = None ->
     bodyWritten (ServeHTTP r rw req) =
       Some (rewriteBody (responses r) (code w) (buffer w))).
Proof.
  intros E r rw req w contentEncoding. split.
  - intros Hne Hni. split.
    + destruct (Header w !! "Content-Encoding") as [v|] eqn:Hlook; [by eexists|].
      exfalso. apply Hne. by apply Get_absent.
    + rewrite bodyWritten_ServeHTTP. f_equal. by apply finalBody_encoded.
  - intros Hce. rewrite bodyWritten_ServeHTTP. f_equal. apply finalBody_identity.
    destruct Hce as [Hid|Habsent]; [by right|left]. by apply Get_absent.
Qed.

Lemma ServeHTTP_skips_encoded_body_witness :
  bodyWritten (ServeHTTP (Tests.middleware (Tests.nextHandler "gzip" 200)
                                           Tests.replaceFoo)
                         Tests.recorder Tests.request)
    = Some (Text.bytes "foo is the new bar") /\
  bodyWritten (ServeHTTP (Tests.middleware (Tests.nextHandler "identity" 200)
                                           Tests.replaceFoo)
                         Tests.recorder Tests.request)
    = Some (Text.bytes "bar is the new bar").
Proof.
  split.
  - destruct (ServeHTTP_skips_encoded_body Literal.engine
                (Tests.middleware (Tests.nextHandler "gzip" 200) Tests.replaceFoo)
                Tests.recorder Tests.request) as [Hskip _].
    destruct Hskip as [_ Hbody].
    + intros Heq. vm_compute in Heq. discriminate Heq.
    + intros Heq. vm_compute in Heq. discriminate Heq.
    + rewrite Hbody. reflexivity.
  - destruct (ServeHTTP_skips_encoded_body Literal.engine
                (Tests.middleware (Tests.nextHandler "identity" 200)
                                  Tests.replaceFoo)
                Tests.recorder Tests.request) as [_ Hrewrite].
    rewrite Hrewrite; [reflexivity|]. left. reflexivity.
Defined.

(** ** Literal patterns *)

Lemma isRepetition_isMeta c : Literal.isRepetition c = true -> Literal.isMeta c = true.
Proof.
  unfold Literal.isRepetition. simpl. rewrite !orb_true_iff, !Ascii.eqb_eq.
  intros [->|[->|[->|Hfalse]]]; try reflexivity. discriminate Hfalse.
Qed.

Lemma opensWithRepetition_not_literal pattern :
  Literal.opensWithRepetition pattern = true -> Literal.isLiteral pattern = false.
Proof.
  destruct pattern as [|c pattern]; simpl; [done|].
  intros Hrep. by rewrite (isRepetition_isMeta c Hrep), andb_false_r.
Qed.

(** The literal engine is a model of what is assumed of Go's. *)
#[export] Instance literal_GoRegexp : GoRegexp Literal.engine.
Proof.
  split.
  - intros pattern Hrep. simpl. by rewrite opensWithRepetition_not_literal.
  - intros pattern Hlit. simpl. rewrite Hlit. eexists. split; [done|]. done.
Qed.

(** C3. The rewrites of the matched entry are applied one after the other in
    the configured order, each to the output of the one before it: the
    rewrites of a list that starts with one rewrite are those of the rest
    applied to what that rewrite gives, and however the rewrites of the
    matched entry are cut in two, the body written is the second part
    applied to the result of the first.
    With foo -> bar followed by bar -> foo for the statuses 200-299, the
    response 200 "foo is the new bar" is written as "foo is the new foo". *)
Theorem rewrites_chain_in_order :
  forall (E : RegexpEngine), GoRegexp E ->
    (forall (rewrite : parsedRewrite) rws bodyBytes,
        applyRewrites (rewrite :: rws) bodyBytes =
        applyRewrites rws (ReplaceAll (regex rewrite) bodyBytes (replacement rewrite))) /\
    (forall (rws1 rws2 : list parsedRewrite) bodyBytes,
        applyRewrites (rws1 ++ rws2) bodyBytes =
        applyRewrites rws2 (applyRewrites rws1 bodyBytes)) /\
    (forall (r : responsebodyrewrite) rw req response rws1 rws2,
        Get "Content-Encoding" (Header (served r rw req)) = "" \/
        Get "Content-Encoding" (Header (served r rw req)) = "identity" ->
        firstMatch (responses r) (code (served r rw req)) = Some response ->
        rewrites response = rws1 ++ rws2 ->
        bodyWritten (ServeHTTP r rw req) =
          Some (applyRewrites rws2 (applyRewrites rws1 (buffer (served r rw req))))) /\
    (forall rejectInverted : bool,
      exists r : responsebodyrewrite,
        New rejectInverted (Tests.nextHandler "" 200)
            Tests.replaceFooThenBar "rewriteBody" = Ok r /\
        bodyWritten (ServeHTTP r Tests.recorder Tests.request)
          = Some (Text.bytes "foo is the new foo")).
Proof.
  intros E HE. split; [apply applyRewrites_cons|].
  split; [apply applyRewrites_app|]. split.
  - intros r rw req response rws1 rws2 Hce Hfirst Hsplit.
    rewrite bodyWritten_ServeHTTP, finalBody_identity by done.
    by rewrite rewriteBody_firstMatch, Hfirst, Hsplit, applyRewrites_app.
  - intros rejectInverted.
    destruct (compile_literal "foo" eq_refl) as (foo & Hfoo & Hfoo_all).
    destruct (compile_literal "bar" eq_refl) as (bar & Hbar & Hbar_all).
    eexists. split.
    + unfold New, Tests.replaceFooThenBar. cbn [Responses mapM bind].
      unfold parseResponse. cbn [Status Rewrites].
      replace (NewHTTPCodeRanges rejectInverted ["200-299"]) with (Ok [(200, 299)])
        by (by destruct rejectInverted).
      cbn [bind mapM]. unfold compileRewrite. cbn [Tests.fooBar Tests.barFoo Regex].
      rewrite Hfoo, Hbar. cbn [bind Replacement]. reflexivity.
    + rewrite bodyWritten_ServeHTTP. f_equal.
      unfold finalBody, served. cbn [next responses].
      replace (Get "Content-Encoding" _) with "" by reflexivity.
      cbn [String.eqb negb andb].
      replace (code _) with 200 by reflexivity.
      replace (buffer _) with (Text.bytes "foo is the new bar") by reflexivity.
      cbn [rewriteBody status rewrites applyRewrites fold_left regex replacement].
      replace (Contains [(200, 299)] 200) with true by reflexivity. cbn [negb].
      rewrite Hfoo_all by reflexivity. rewrite Hbar_all by reflexivity.
      reflexivity.
Qed.

Lemma rewrites_chain_in_order_witness :
  (exists r : responsebodyrewrite,
      New (E := Literal.engine) true (Tests.nextHandler "" 200)
          Tests.replaceFooThenBar "rewriteBody" = Ok r /\
      bodyWritten (ServeHTTP r Tests.recorder Tests.request)
        = Some (Text.bytes "foo is the new foo")) /\
  bodyWritten (ServeHTTP (Tests.middleware (Tests.nextHandler "identity" 200)
                                           Tests.replaceFooThenBar)
                         Tests.recorder Tests.request)
    = Some (Literal.replaceAll (Text.bytes "bar") (Text.bytes "foo")
              (Literal.replaceAll (Text.bytes "foo") (Text.bytes "bar")
                 (Text.bytes "foo is the new bar"))).
Proof.
  destruct (rewrites_chain_in_order Literal.engine literal_GoRegexp)
    as (_ & _ & Hsplit & Hexample).
  split; [exact (Hexample true)|].
  etransitivity.
  - eapply (Hsplit _ Tests.recorder Tests.request _ [_] [_]).
    + right. reflexivity.
    + reflexivity.
    + reflexivity.
  - reflexivity.
Defined.

(** ** Construction *)

Section NewFacts.

Context {E : RegexpEngine}.
Variable rejectInverted : bool.

Lemma compileRewrite_Ok rewriteConfig (rewrite : parsedRewrite) :
  compileRewrite rewriteConfig = Ok rewrite <->
  Compile (Regex rewriteConfig) = Some (regex rewrite) /\
  replacement rewrite = Text.bytes (Replacement rewriteConfig).
Proof.
  unfold compileRewrite. destruct (Compile (Regex rewriteConfig)) as [re|].
  - split.
    + intros [= <-]. done.
    + destruct rewrite as [re' repl]. simpl. intros [[= ->] ->]. done.
  - split; [done|]. by intros [? _].
Qed.

Lemma compileRewrite_Err rewriteConfig :
  isErr (compileRewrite rewriteConfig) = true <-> Compile (Regex rewriteConfig) = None.
Proof. unfold compileRewrite. by destruct (Compile (Regex rewriteConfig)). Qed.

Lemma parseResponse_Ok response (parsed : parsedResponse) :
  parseResponse rejectInverted response = Ok parsed <->
  NewHTTPCodeRanges rejectInverted [Status response] = Ok (status parsed) /\
  Forall2 (fun rewriteConfig rewrite =>
             Compile (Regex rewriteConfig) = Some (regex rewrite) /\
             replacement rewrite = Text.bytes (Replacement rewriteConfig))
          (Rewrites response) (rewrites parsed).
Proof.
  unfold parseResponse.
  destruct (NewHTTPCodeRanges rejectInverted [Status response]) as [h|e]; simpl.
  - destruct (mapM compileRewrite (Rewrites response)) as [rws|e] eqn:Hrws; simpl.
    + split.
      * intros [= <-]. simpl. split; [done|]. apply mapM_Ok in Hrws.
        eapply Forall2_impl; [exact Hrws|]. intros ? ?. apply compileRewrite_Ok.
      * destruct parsed as [rws' h']. simpl. intros [[= ->] Hall].
        assert (Hrws' : mapM compileRewrite (Rewrites response) = Ok rws').
        { apply mapM_Ok. eapply Forall2_impl; [exact Hall|].
          intros ? ?. apply compileRewrite_Ok. }
        rewrite Hrws in Hrws'. by injection Hrws' as ->.
    + split; [done|]. intros [_ Hall].
      assert (Hrws' : mapM compileRewrite (Rewrites response) = Ok (rewrites parsed)).
      { apply mapM_Ok. eapply Forall2_impl; [exact Hall|].
        intros ? ?. apply compileRewrite_Ok. }
      congruence.
  - split; [done|]. by intros [? _].
Qed.

Lemma parseResponse_Err response :
  isErr (parseResponse rejectInverted response) = true <->
  isErr (NewHTTPCodeRanges rejectInverted [Status response]) = true \/
  exists rewriteConfig, rewriteConfig ∈ Rewrites response /\
                        Compile (Regex rewriteConfig) = None.
Proof.
  unfold parseResponse.
  destruct (NewHTTPCodeRanges rejectInverted [Status response]) as [h|e]; simpl.
  - destruct (mapM compileRewrite (Rewrites response)) as [rws|e] eqn:Hrws; simpl.
    + split; [done|]. intros [?|(rewriteConfig & Hin & Hnone)]; [done|].
      assert (Herr : isErr (mapM compileRewrite (Rewrites response)) = true).
      { apply mapM_Err. exists rewriteConfig. by rewrite compileRewrite_Err. }
      by rewrite Hrws in Herr.
    + split; [|done]. intros _. right.
      assert (Herr : isErr (mapM compileRewrite (Rewrites response)) = true)
        by (by rewrite Hrws).
      apply mapM_Err in Herr as (rewriteConfig & Hin & Herr).
      exists rewriteConfig. by rewrite <- compileRewrite_Err.
  - split; [by left|done].
Qed.

Lemma New_Err nextHandler config middlewareName :
  isErr (New rejectInverted nextHandler config middlewareName) = true <->
  exists response, response ∈ Responses config /\
    (isErr (NewHTTPCodeRanges rejectInverted [Status response]) = true \/
     exists rewriteConfig, rewriteConfig ∈ Rewrites response /\
                           Compile (Regex rewriteConfig) = None).
Proof.
  unfold New.
  destruct (mapM (parseResponse rejectInverted) (Responses config)) as [rs|e] eqn:Hrs; simpl.
  - split; [done|]. intros (response & Hin & Hbad).
    assert (Herr : isErr (mapM (parseResponse rejectInverted) (Responses config)) = true).
    { apply mapM_Err. exists response. by rewrite parseResponse_Err. }
    by rewrite Hrs in Herr.
  - split; [|done]. intros _.
    assert (Herr : isErr (mapM (parseResponse rejectInverted) (Responses config)) = true)
      by (by rewrite Hrs).
    apply mapM_Err in Herr as (response & Hin & Herr).
    exists response. by rewrite <- parseResponse_Err.
Qed.

Lemma New_Ok nextHandler config middlewareName (r : responsebodyrewrite) :
  New rejectInverted nextHandler config middlewareName = Ok r ->
  next r = nextHandler /\ name r = middlewareName /\ lastModified r = true /\
  Forall2 (fun response parsed =>
             NewHTTPCodeRanges rejectInverted [Status response] = Ok (status parsed) /\
             Forall2 (fun rewriteConfig rewrite =>
                        Compile (Regex rewriteConfig) = Some (regex rewrite) /\
                        replacement rewrite = Text.bytes (Replacement rewriteConfig))
                     (Rewrites response) (rewrites parsed))
          (Responses config) (responses r).
Proof.
  unfold New.
  destruct (mapM (parseResponse rejectInverted) (Responses config)) as [rs|e] eqn:Hrs;
    simpl; [|done].
  intros [= <-]. simpl. do 3 (split; [done|]).
  apply mapM_Ok in Hrs. eapply Forall2_impl; [exact Hrs|].
  intros ? ?. apply parseResponse_Ok.
Qed.

End NewFacts.

(** C6. [New] returns an error, and with it no middleware, exactly when the
    status of some configured entry does not parse or the pattern of some
    rewrite does not compile; so it does for the statuses "200-abc",
    "abc-200" and "200,299foo" and for the pattern "*".  In every other case
    it returns a middleware that holds, entry for entry and rewrite for
    rewrite in the configured order, the parsed ranges, the compiled pattern
    and the replacement bytes of the configuration: none is missing. *)
Theorem New_is_all_or_nothing :
  forall (E : RegexpEngine), GoRegexp E ->
  forall (rejectInverted : bool) (nextHandler : Handler) (config : Config)
         (middlewareName : string),
    let built := New rejectInverted nextHandler config middlewareName in
    (isErr built = true <->
     exists response, response ∈ Responses config /\
       (isErr (NewHTTPCodeRanges rejectInverted [Status response]) = true \/
        exists rewriteConfig, rewriteConfig ∈ Rewrites response /\
                              Compile (Regex rewriteConfig) = None)) /\
    (isErr built = false <-> exists r, built = Ok r) /\
    (forall r, built = Ok r ->
       next r = nextHandler /\ name r = middlewareName /\ lastModified r = true /\
       Forall2 (fun response parsed =>
                  NewHTTPCodeRanges rejectInverted [Status response] = Ok (status parsed) /\
                  Forall2 (fun rewriteConfig rewrite =>
                             Compile (Regex rewriteConfig) = Some (regex rewrite) /\
                             replacement rewrite = Text.bytes (Replacement rewriteConfig))
                          (Rewrites response) (rewrites parsed))
               (Responses config) (responses r)) /\
    (forall response,
       response ∈ Responses config ->
       Status response ∈ ["200-abc"; "abc-200"; "200,299foo"] ->
       isErr built = true) /\
    (forall response rewriteConfig,
       response ∈ Responses config -> rewriteConfig ∈ Rewrites response ->
       Regex rewriteConfig = "*" ->
       isErr built = true).
Proof.
  intros E HE rejectInverted nextHandler config middlewareName built. subst built.
  split; [apply New_Err|]. split.
  { destruct (New rejectInverted nextHandler config middlewareName) as [r|e]; simpl.
    - split; [by eexists|done].
    - split; [done|]. by intros [? ?]. }
  split; [intros r; apply New_Ok|]. split.
  - intros response Hin Hstatus. apply New_Err. exists response. split; [done|]. left.
    repeat (apply elem_of_cons in Hstatus as [->|Hstatus];
            [by destruct rejectInverted|]).
    by apply not_elem_of_nil in Hstatus.
  - intros response rewriteConfig Hin Hin' Hstar. apply New_Err.
    exists response. split; [done|]. right. exists rewriteConfig. split; [done|].
    rewrite Hstar. by apply compile_repetition.
Qed.

Lemma New_is_all_or_nothing_witness :
  isErr (New (E := Literal.engine) false (Tests.nextHandler "" 200)
             Tests.badStatus "rewriteBody") = true /\
  isErr (New (E := Literal.engine) false (Tests.nextHandler "" 200)
             Tests.badRegex "rewriteBody") = true /\
  exists r, New (E := Literal.engine) false (Tests.nextHandler "" 200)
                Tests.replaceFooThenBar "rewriteBody" = Ok r.
Proof.
  split; [|split].
  - destruct (New_is_all_or_nothing Literal.engine literal_GoRegexp false
                (Tests.nextHandler "" 200) Tests.badStatus "rewriteBody")
      as (_ & _ & _ & Hstatus & _).
    eapply Hstatus.
    + apply list_elem_of_here.
    + simpl. apply list_elem_of_further, list_elem_of_further, list_elem_of_here.
  - destruct (New_is_all_or_nothing Literal.engine literal_GoRegexp false
                (Tests.nextHandler "" 200) Tests.badRegex "rewriteBody")
      as (_ & _ & _ & _ & Hregex).
    eapply Hregex.
    + apply list_elem_of_here.
    + apply list_elem_of_here.
    + reflexivity.
  - destruct (New_is_all_or_nothing Literal.engine literal_GoRegexp false
                (Tests.nextHandler "" 200) Tests.replaceFooThenBar
                "rewriteBody")
      as (_ & Hok & _).
    apply Hok. reflexivity.
Defined.

(** ** The status write *)

Lemma WriteHeader_headersSent statusCode r :
  informational statusCode = false -> headersSent (WriteHeader statusCode r) = true.
Proof.
  intros Hfinal. destruct (headersSent r) eqn:Hsent.
  - by rewrite WriteHeader_sent.
  - by rewrite WriteHeader_commit.
Qed.

Lemma commits_ServeHTTP {E : RegexpEngine} (m : responsebodyrewrite) rw req :
  commits (sinkCalls (ServeHTTP m rw req)) =
  commits (sinkCalls (ResponseWriter (served m rw req))).
Proof. rewrite ServeHTTP_calls, commits_app. simpl. apply app_nil_r. Qed.

(** C7. Once a status that is not informational has been committed, a
    further [WriteHeader], whatever its code, leaves the wrapper and the
    real sink as they are: captured code, headers and calls received.  A
    status write that is not informational commits.  So in a whole request
    the real sink receives at most one status write that is not
    informational. *)
Theorem WriteHeader_is_one_shot :
  (forall statusCode r, headersSent r = true -> WriteHeader statusCode r = r) /\
  (forall statusCode r,
      informational statusCode = false -> headersSent (WriteHeader statusCode r) = true) /\
  (forall first second r,
      informational first = false ->
      WriteHeader second (WriteHeader first r) = WriteHeader first r) /\
  (forall (E : RegexpEngine) (m : responsebodyrewrite) h flusher hijacker req,
      (length (commits (sinkCalls (ServeHTTP m (newSink h flusher hijacker) req))) <= 1)%nat).
Proof.
  split; [apply WriteHeader_sent|]. split; [apply WriteHeader_headersSent|]. split.
  - intros first second r Hfinal. by apply WriteHeader_sent, WriteHeader_headersSent.
  - intros E m h flusher hijacker req. rewrite commits_ServeHTTP.
    pose proof (wrapperInv_served m h flusher hijacker req) as Hinv.
    unfold wrapperInv in Hinv.
    destruct (headersSent (served m (newSink h flusher hijacker) req)).
    + destruct Hinv as (sent & -> & _). simpl. lia.
    + destruct Hinv as [-> _]. simpl. lia.
Qed.

Lemma WriteHeader_is_one_shot_witness :
  WriteHeader 200 (WriteHeader 404 (newResponseWriter
                                      (Tests.middleware Tests.writesTwice Tests.replaceFoo)
                                      Tests.recorder))
  = WriteHeader 404 (newResponseWriter (Tests.middleware Tests.writesTwice Tests.replaceFoo)
                                       Tests.recorder) /\
  commits (sinkCalls (ServeHTTP (Tests.middleware Tests.writesTwice Tests.replaceFoo)
                                Tests.recorder Tests.request))
  = [(404, ∅)] /\
  (length (commits (sinkCalls (ServeHTTP (Tests.middleware Tests.writesTwice
                                                           Tests.replaceFoo)
                                         Tests.recorder Tests.request))) <= 1)%nat.
Proof.
  destruct WriteHeader_is_one_shot as (_ & _ & Hagain & Honce).
  split; [|split].
  - apply Hagain. reflexivity.
  - reflexivity.
  - apply (Honce Literal.engine).
Defined.

(** ** The body write *)

Lemma code_call c r :
  setsStatus [c] = false -> code r = 200 -> code (call c r) = 200.
Proof.
  intros Hc Hcode. destruct c as [f|statusCode|p| |]; cbn [call].
  - unfold editHeader. by destruct (headersSent r).
  - simpl in Hc. rewrite orb_false_r, negb_false_iff in Hc.
    destruct (headersSent r) eqn:Hsent.
    + by rewrite WriteHeader_sent.
    + by rewrite WriteHeader_informational.
  - destruct (headersSent r) eqn:Hsent.
    + by rewrite Write_sent.
    + by rewrite Write_unsent.
  - unfold Flush. by destruct (isFlusher (ResponseWriter r)).
  - unfold Hijack. by destruct (isHijacker (ResponseWriter r)).
Qed.

Lemma code_run calls r :
  setsStatus calls = false -> code r = 200 -> code (run calls r) = 200.
Proof.
  revert r. induction calls as [|c calls IH]; intros r Hcalls Hcode; [done|].
  unfold setsStatus in Hcalls. simpl in Hcalls. apply orb_false_iff in Hcalls as [Hc Hcalls].
  rewrite run_cons. apply IH; [done|]. apply code_call; [|done].
  unfold setsStatus. simpl. by rewrite Hc.
Qed.

Lemma copyHeader_lookup (src dst : http_Header) key :
  copyHeader src dst !! key =
  match src !! key with
  | Some v => Some v
  | None => dst !! key
  end.
Proof.
  unfold copyHeader. rewrite lookup_union. by destruct (src !! key), (dst !! key).
Qed.

(** C8. A [Write] before any status has been committed is a
    [WriteHeader(200)] followed by the write: the headers set so far are
    copied to the real sink, which receives the status 200, the captured
    code is 200, and the bytes go to the buffer, not to the sink.  And when
    the handler never writes a final status itself, the code that
    [ServeHTTP] matches against the configured entries is 200. *)
Theorem Write_commits_200_first :
  (forall p r,
      headersSent r = false ->
      Write p r = Write p (WriteHeader 200 r) /\
      headersSent (Write p r) = true /\
      code (Write p r) = 200 /\
      buffer (Write p r) = buffer r ++ p /\
      sinkHeader (ResponseWriter (Write p r)) =
        Del "Content-Length" (copyHeader (headerMap r) (sinkHeader (ResponseWriter r))) /\
      sinkCalls (ResponseWriter (Write p r)) =
        sinkCalls (ResponseWriter r) ++
        [CallWriteHeader 200 (sinkHeader (ResponseWriter (Write p r)))] /\
      (forall key v, key <> "Content-Length" -> headerMap r !! key = Some v ->
                     sinkHeader (ResponseWriter (Write p r)) !! key = Some v)) /\
  (forall (E : RegexpEngine) (m : responsebodyrewrite) rw req,
      setsStatus (next m req) = false ->
      code (served m rw req) = 200 /\
      (Get "Content-Encoding" (Header (served m rw req)) = "" \/
       Get "Content-Encoding" (Header (served m rw req)) = "identity" ->
       bodyWritten (ServeHTTP m rw req) =
         Some (rewriteBody (responses m) 200 (buffer (served m rw req))))).
Proof.
  split.
  - intros p r Hsent. split.
    { rewrite (Write_sent p (WriteHeader 200 r)) by by apply WriteHeader_headersSent.
      rewrite Write_unsent, WriteHeader_commit by done. reflexivity. }
    rewrite Write_unsent by done. simpl. do 5 (split; [done|]).
    intros key v Hkey Hv. unfold Del. rewrite lookup_delete_ne by done.
    by rewrite copyHeader_lookup, Hv.
  - intros E m rw req Hnone.
    assert (Hcode : code (served m rw req) = 200) by (by apply code_run).
    split; [done|]. intros Hce.
    by rewrite bodyWritten_ServeHTTP, finalBody_identity, Hcode.
Qed.

Lemma Write_commits_200_first_witness :
  sinkCalls (ResponseWriter (served (Tests.middleware Tests.writesBodyOnly Tests.replaceFoo)
                                    Tests.recorder Tests.request))
  = [CallWriteHeader 200 (Set_ "Last-Modified" "Thu, 02 Jun 2016 06:01:08 GMT" ∅)] /\
  bodyWritten (ServeHTTP (Tests.middleware Tests.writesBodyOnly Tests.replaceFoo)
                         Tests.recorder Tests.request)
  = Some (Text.bytes "bar is the new bar").
Proof.
  destruct Write_commits_200_first as [Hwrite Hserve]. split.
  - destruct (Hwrite (Text.bytes Tests.resBody)
                (editHeader (Set_ "Last-Modified" "Thu, 02 Jun 2016 06:01:08 GMT")
                   (newResponseWriter (Tests.middleware Tests.writesBodyOnly Tests.replaceFoo)
                                      Tests.recorder)) eq_refl)
      as (_ & _ & _ & _ & _ & Hcalls & _).
    exact Hcalls.
  - destruct (Hserve Literal.engine (Tests.middleware Tests.writesBodyOnly Tests.replaceFoo)
                Tests.recorder Tests.request eq_refl) as [_ Hbody].
    rewrite Hbody; [reflexivity|]. left. reflexivity.
Defined.

(** ** Informational status writes *)

Lemma copyHeader_idemp (src dst : http_Header) :
  copyHeader src (copyHeader src dst) = copyHeader src dst.
Proof.
  apply map_eq. intros key. rewrite !copyHeader_lookup. by destruct (src !! key).
Qed.

(** The wrapper after informational status writes, before any commit. *)
Lemma run_informational (infos : list Z) r :
  headersSent r = false -> Forall (fun c => informational c = true) infos ->
  let r' := run (map CallerWriteHeader infos) r in
  headersSent r' = false /\ code r' = code r /\ buffer r' = buffer r /\
  headerMap r' = headerMap r /\
  commits (sinkCalls (ResponseWriter r')) = commits (sinkCalls (ResponseWriter r)) /\
  copyHeader (headerMap r) (sinkHeader (ResponseWriter r')) =
  copyHeader (headerMap r) (sinkHeader (ResponseWriter r)).
Proof.
  intros Hsent Hinfos. revert r Hsent.
  induction Hinfos as [|c infos Hc _ IH]; intros r Hsent; [done|].
  cbn [map]. rewrite run_cons. cbn [call].
  rewrite WriteHeader_informational by done.
  destruct (IH (withSink (sinkWriteHeader c
                  (sinkSetHeader (copyHeader (headerMap r) (sinkHeader (ResponseWriter r)))
                                 (ResponseWriter r))) r) Hsent)
    as (Hs & Hcode & Hbuf & Hmap & Hcommits & Hcopy).
  cbn [withSink headerMap code buffer ResponseWriter sinkWriteHeader sinkSetHeader
       sinkCall sinkHeader sinkCalls] in Hcode, Hbuf, Hmap, Hcommits, Hcopy.
  cbn zeta. rewrite Hs, Hcode, Hbuf, Hmap, Hcommits, Hcopy.
  rewrite commits_snoc_WriteHeader, Hc, app_nil_r, copyHeader_idemp. done.
Qed.

(** C9. Before the commit, a [WriteHeader] with a code from 100 to 199 goes
    to the real sink at once, after the private headers have been copied
    onto the sink's headers: each private key replaces the sink's entry for
    that key, so a second informational write leaves the sink's headers as
    the first left them.  The write does not commit: [headersSent], the
    captured code, the buffer and the private headers are unchanged.  After
    any number of informational writes a status that is not informational
    commits as it would have done without them. *)
Theorem WriteHeader_informational_passes_through :
  forall (statusCode : Z) (r : responseWriter),
    headersSent r = false -> informational statusCode = true ->
    let r' := WriteHeader statusCode r in
    sinkHeader (ResponseWriter r') =
      copyHeader (headerMap r) (sinkHeader (ResponseWriter r)) /\
    sinkCalls (ResponseWriter r') =
      sinkCalls (ResponseWriter r) ++
      [CallWriteHeader statusCode (sinkHeader (ResponseWriter r'))] /\
    (forall key, sinkHeader (ResponseWriter r') !! key =
                 match headerMap r !! key with
                 | Some v => Some v
                 | None => sinkHeader (ResponseWriter r) !! key
                 end) /\
    (headersSent r' = false /\ code r' = code r /\ buffer r' = buffer r /\
     headerMap r' = headerMap r) /\
    (forall again, informational again = true ->
       sinkHeader (ResponseWriter (WriteHeader again r')) = sinkHeader (ResponseWriter r')) /\
    (forall (infos : list Z) (final : Z),
       Forall (fun c => informational c = true) infos ->
       informational final = false ->
       let r'' := WriteHeader final (run (map CallerWriteHeader infos) r') in
       headersSent r'' = true /\ code r'' = final /\
       sinkHeader (ResponseWriter r'') = sinkHeader (ResponseWriter (WriteHeader final r)) /\
       commits (sinkCalls (ResponseWriter r'')) =
         commits (sinkCalls (ResponseWriter (WriteHeader final r)))).
Proof.
  intros statusCode r Hsent Hinfo r'. subst r'.
  rewrite WriteHeader_informational by done. simpl.
  split; [done|]. split; [done|]. split; [apply copyHeader_lookup|].
  split; [done|]. split.
  - intros again Hagain. rewrite WriteHeader_informational by done. simpl.
    apply copyHeader_idemp.
  - intros infos final Hinfos Hfinal.
    pose proof (run_informational (statusCode :: infos) r Hsent
                  (Forall_cons_2 _ _ _ Hinfo Hinfos)) as Hrun.
    cbn [map] in Hrun. rewrite run_cons in Hrun. cbn [call] in Hrun.
    rewrite WriteHeader_informational in Hrun by done.
    cbn zeta in Hrun. destruct Hrun as (Hs & Hcode & Hbuf & Hmap & Hcommits & Hcopy).
    cbn zeta. rewrite !WriteHeader_commit by done. simpl.
    rewrite Hmap, Hcopy, !commits_snoc_WriteHeader, Hcommits. done.
Qed.

Lemma WriteHeader_informational_passes_through_witness :
  sinkCalls (ResponseWriter
               (WriteHeader 103
                  (editHeader (Set_ "Link" "</style.css>; rel=preload")
                     (newResponseWriter (Tests.middleware Tests.hintsTwice Tests.replaceFoo)
                                        Tests.recorder))))
  = [CallWriteHeader 103 (Set_ "Link" "</style.css>; rel=preload" ∅)] /\
  commits (sinkCalls (ResponseWriter
                        (WriteHeader 200
                           (run [CallerWriteHeader 103]
                              (WriteHeader 103
                                 (editHeader (Set_ "Link" "</style.css>; rel=preload")
                                    (newResponseWriter
                                       (Tests.middleware Tests.hintsTwice Tests.replaceFoo)
                                       Tests.recorder)))))))
  = [(200, Set_ "Link" "</style.css>; rel=preload" ∅)].
Proof.
  destruct (WriteHeader_informational_passes_through 103
              (editHeader (Set_ "Link" "</style.css>; rel=preload")
                 (newResponseWriter (Tests.middleware Tests.hintsTwice Tests.replaceFoo)
                                    Tests.recorder)) eq_refl eq_refl)
    as (_ & Hcalls & _ & _ & _ & Hfinal).
  split; [exact Hcalls|].
  destruct (Hfinal [103] 200) as (_ & _ & _ & Hcommits).
  - by repeat constructor.
  - reflexivity.
  - etransitivity; [exact Hcommits|reflexivity].
Defined.

(** ** Content-Length *)

Lemma liveHeader_call c r :
  (headersSent r = true -> keepsAbsent "Content-Length" c) ->
  (headersSent r = true -> sinkHeader (ResponseWriter r) !! "Content-Length" = None) ->
  headersSent (call c r) = true ->
  sinkHeader (ResponseWriter (call c r)) !! "Content-Length" = None.
Proof.
  intros Hkeeps Hlive. destruct c as [f|statusCode|p| |]; cbn [call].
  - unfold editHeader. destruct (headersSent r) eqn:Hsent; simpl.
    + intros _. apply (Hkeeps eq_refl). by apply Hlive.
    + by rewrite ?Hsent.
  - destruct (headersSent r) eqn:Hsent.
    + rewrite WriteHeader_sent by done. intros _. by apply Hlive.
    + destruct (informational statusCode) eqn:Hinfo.
      * rewrite WriteHeader_informational by done. simpl. by rewrite ?Hsent.
      * rewrite WriteHeader_commit by done. simpl. intros _. apply Del_absent.
  - destruct (headersSent r) eqn:Hsent.
    + rewrite Write_sent by done. simpl. intros _. by apply Hlive.
    + rewrite Write_unsent by done. simpl. intros _. apply Del_absent.
  - unfold Flush. destruct (isFlusher (ResponseWriter r)); simpl; [|done].
    intros Hsent. by apply Hlive.
  - unfold Hijack. destruct (isHijacker (ResponseWriter r)); simpl; [|done].
    intros Hsent. by apply Hlive.
Qed.

Lemma liveHeader_run calls r :
  leavesAbsent "Content-Length" calls r ->
  (headersSent r = true -> sinkHeader (ResponseWriter r) !! "Content-Length" = None) ->
  headersSent (run calls r) = true ->
  sinkHeader (ResponseWriter (run calls r)) !! "Content-Length" = None.
Proof.
  revert r. induction calls as [|c calls IH]; intros r Hleaves Hlive; [done|].
  destruct Hleaves as [Hkeeps Hleaves]. rewrite run_cons.
  apply IH; [done|]. by apply liveHeader_call.
Qed.

(** C10. A status write that commits deletes Content-Length from the
    headers of the real sink, after the private headers have been copied
    there and before the sink receives the status; the deletion does not
    look at the configured entries nor at the Content-Encoding.  So, for any
    configuration and any handler, every status that is not informational
    reaches the real sink with headers that have no Content-Length, and the
    sink's header map has none at the end of a committed request unless the
    handler puts one there after the commit. *)
Theorem commit_always_deletes_Content_Length :
  (forall statusCode r,
      headersSent r = false -> informational statusCode = false ->
      let r' := WriteHeader statusCode r in
      sinkHeader (ResponseWriter r') =
        Del "Content-Length" (copyHeader (headerMap r) (sinkHeader (ResponseWriter r))) /\
      sinkHeader (ResponseWriter r') !! "Content-Length" = None /\
      sinkCalls (ResponseWriter r') =
        sinkCalls (ResponseWriter r) ++
        [CallWriteHeader statusCode (sinkHeader (ResponseWriter r'))]) /\
  (forall (E : RegexpEngine) (m : responsebodyrewrite) h flusher hijacker req statusCode sent,
      (statusCode, sent) ∈ commits (sinkCalls (ServeHTTP m (newSink h flusher hijacker) req)) ->
      sent !! "Content-Length" = None) /\
  (forall (E : RegexpEngine) (m : responsebodyrewrite) rw req,
      headersSent (served m rw req) = true ->
      leavesAbsent "Content-Length" (next m req) (newResponseWriter m rw) ->
      sinkHeader (ServeHTTP m rw req) !! "Content-Length" = None).
Proof.
  split; [|split].
  - intros statusCode r Hsent Hfinal r'. subst r'.
    rewrite WriteHeader_commit by done. simpl.
    split; [done|]. split; [apply Del_absent|done].
  - intros E m h flusher hijacker req statusCode sent. rewrite commits_ServeHTTP.
    pose proof (wrapperInv_served m h flusher hijacker req) as Hinv.
    unfold wrapperInv in Hinv.
    destruct (headersSent (served m (newSink h flusher hijacker) req)).
    + destruct Hinv as (sent' & -> & Habsent). intros Hin.
      apply list_elem_of_singleton in Hin. by injection Hin as -> ->.
    + destruct Hinv as [-> _]. intros Hin. by apply not_elem_of_nil in Hin.
  - intros E m rw req Hsent Hleaves. rewrite ServeHTTP_header.
    by apply liveHeader_run.
Qed.

Lemma commit_always_deletes_Content_Length_witness :
  commits (sinkCalls (ServeHTTP (Tests.middleware (Tests.nextHandler "gzip" 404)
                                                  Tests.replaceFoo)
                                Tests.recorder Tests.request))
  = [(404, Set_ "Last-Modified" "Thu, 02 Jun 2016 06:01:08 GMT"
             (Set_ "Content-Encoding" "gzip" ∅))] /\
  Set_ "Last-Modified" "Thu, 02 Jun 2016 06:01:08 GMT" (Set_ "Content-Encoding" "gzip" ∅)
    !! "Content-Length" = None /\
  sinkHeader (ServeHTTP (Tests.middleware (Tests.nextHandler "gzip" 404) Tests.replaceFoo)
                        Tests.recorder Tests.request)
    !! "Content-Length" = None.
Proof.
  assert (Hcommits :
    commits (sinkCalls (ServeHTTP (Tests.middleware (Tests.nextHandler "gzip" 404)
                                                    Tests.replaceFoo)
                                  Tests.recorder Tests.request))
    = [(404, Set_ "Last-Modified" "Thu, 02 Jun 2016 06:01:08 GMT"
               (Set_ "Content-Encoding" "gzip" ∅))]) by reflexivity.
  split; [exact Hcommits|].
  destruct commit_always_deletes_Content_Length as (_ & Hsent & Hlive). split.
  - apply (Hsent Literal.engine
             (Tests.middleware (Tests.nextHandler "gzip" 404) Tests.replaceFoo)
             ∅ true false Tests.request 404).
    change (newSink ∅ true false) with Tests.recorder.
    rewrite Hcommits. apply list_elem_of_here.
  - apply Hlive; [reflexivity|].
    repeat (split; [intros Hcommitted; try discriminate Hcommitted; exact I|]).
    exact I.
Defined.

(** C4. When the status the handler committed is contained in the ranges of
    some configured entry, the real sink has received exactly one status
    that is not informational, the committed one, and the headers it was
    sent with have no Content-Length, whatever the rewrite does to the body
    afterwards; the sink's header map has none at the end of the request
    either, unless the handler puts one there after the commit. *)
Theorem matched_status_has_no_Content_Length :
  forall (E : RegexpEngine) (m : responsebodyrewrite) h flusher hijacker req,
    let rw := newSink h flusher hijacker in
    headersSent (served m rw req) = true ->
    (exists response, response ∈ responses m /\
                      Contains (status response) (code (served m rw req)) = true) ->
    (exists sent,
        commits (sinkCalls (ServeHTTP m rw req)) = [(code (served m rw req), sent)] /\
        sent !! "Content-Length" = None) /\
    (leavesAbsent "Content-Length" (next m req) (newResponseWriter m rw) ->
     sinkHeader (ServeHTTP m rw req) !! "Content-Length" = None).
Proof.
  intros E m h flusher hijacker req rw Hsent _. split.
  - rewrite commits_ServeHTTP.
    pose proof (wrapperInv_served m h flusher hijacker req) as Hinv.
    unfold wrapperInv in Hinv. fold rw in Hinv. by rewrite Hsent in Hinv.
  - intros Hleaves. rewrite ServeHTTP_header. by apply liveHeader_run.
Qed.

Lemma matched_status_has_no_Content_Length_witness :
  (exists sent,
      commits (sinkCalls (ServeHTTP (Tests.middleware (Tests.nextHandler "" 200)
                                                      Tests.replaceFoo)
                                    Tests.recorder Tests.request))
      = [(200, sent)] /\
      sent !! "Content-Length" = None) /\
  sinkHeader (ServeHTTP (Tests.middleware (Tests.nextHandler "" 200) Tests.replaceFoo)
                        Tests.recorder Tests.request)
    !! "Content-Length" = None.
Proof.
  destruct (matched_status_has_no_Content_Length Literal.engine
              (Tests.middleware (Tests.nextHandler "" 200) Tests.replaceFoo)
              ∅ true false Tests.request eq_refl) as [Hsent Hlive].
  - eexists. split; [apply list_elem_of_here|]. reflexivity.
  - split; [exact Hsent|]. apply Hlive.
    repeat (split; [intros Hcommitted; try discriminate Hcommitted; exact I|]).
    exact I.
Defined.

(** ** Content-Length in the revision part_001 *)

Section Part001Facts.

Context {E : RegexpEngine}.

Lemma bodyRewrited_fold (rs : list parsedResponse) statusCode (rewrited : bool) :
  fold_left (fun rewrited response =>
               if negb (Contains (status response) statusCode) then rewrited else true)
            rs rewrited
  = rewrited || existsb (fun response => Contains (status response) statusCode) rs.
Proof.
  revert rewrited. induction rs as [|response rs IH]; intros rewrited; simpl.
  - by rewrite orb_false_r.
  - rewrite IH. by destruct (Contains (status response) statusCode), rewrited.
Qed.

Lemma bodyRewrited_true (rs : list parsedResponse) statusCode :
  Part001.bodyRewrited rs statusCode = true <->
  exists response, response ∈ rs /\ Contains (status response) statusCode = true.
Proof.
  unfold Part001.bodyRewrited. rewrite bodyRewrited_fold. simpl.
  rewrite existsb_exists. by setoid_rewrite list_elem_of_In.
Qed.

Lemma part001Inv_WriteHeader statusCode rw :
  part001Inv rw -> part001Inv (Part001.WriteHeader statusCode rw).
Proof.
  unfold part001Inv, Part001.WriteHeader. intros Hinv.
  destruct (Part001.headersSent rw) eqn:Hsent; [by rewrite Hsent|].
  destruct (informational statusCode) eqn:Hinfo; simpl.
  - by rewrite Hsent, commits_snoc_WriteHeader, Hinfo, Hinv.
  - destruct (Part001.bodyRewrited (Part001.rwResponses rw) statusCode) eqn:Hrewrited;
      simpl; rewrite commits_snoc_WriteHeader, Hinfo, Hinv; simpl;
      (eexists; split; [done|]).
    + intros _. apply Del_absent.
    + done.
Qed.

Lemma part001Inv_call c rw : part001Inv rw -> part001Inv (Part001.call c rw).
Proof.
  intros Hinv. destruct c as [f|statusCode|p| |]; cbn [Part001.call].
  - unfold part001Inv, Part001.editHeader in *.
    by destruct (Part001.headersSent rw) eqn:Hsent; simpl; rewrite ?Hsent.
  - by apply part001Inv_WriteHeader.
  - unfold Part001.Write.
    pose proof (part001Inv_WriteHeader 200 rw Hinv) as Hinv'.
    destruct (negb (Part001.headersSent rw)); done.
  - unfold part001Inv, Part001.Flush in *.
    destruct (isFlusher (Part001.ResponseWriter rw)); [|done]. simpl.
    by rewrite commits_app, app_nil_r.
  - unfold part001Inv, Part001.Hijack in *.
    destruct (isHijacker (Part001.ResponseWriter rw)); [|done]. simpl.
    by rewrite commits_app, app_nil_r.
Qed.

Lemma part001Inv_run calls rw : part001Inv rw -> part001Inv (Part001.run calls rw).
Proof.
  revert rw. induction calls as [|c calls IH]; intros rw Hinv; [done|].
  apply IH. by apply part001Inv_call.
Qed.

Lemma rwResponses_call c rw :
  Part001.rwResponses (Part001.call c rw) = Part001.rwResponses rw.
Proof.
  destruct c as [f|statusCode|p| |]; cbn [Part001.call].
  - unfold Part001.editHeader. by destruct (Part001.headersSent rw).
  - unfold Part001.WriteHeader.
    by destruct (Part001.headersSent rw), (informational statusCode).
  - unfold Part001.Write, Part001.WriteHeader.
    by destruct (Part001.headersSent rw).
  - unfold Part001.Flush. by destruct (isFlusher (Part001.ResponseWriter rw)).
  - unfold Part001.Hijack. by destruct (isHijacker (Part001.ResponseWriter rw)).
Qed.

Lemma rwResponses_run calls rw :
  Part001.rwResponses (Part001.run calls rw) = Part001.rwResponses rw.
Proof.
  revert rw. induction calls as [|c calls IH]; intros rw; [done|].
  unfold Part001.run in *. simpl. by rewrite IH, rwResponses_call.
Qed.

End Part001Facts.

(** X1. The revision part_001 deletes Content-Length for a status that an entry
    contains: such a status reaches the real sink exactly once, with headers
    that have no Content-Length. *)
Theorem part001_matched_status_has_no_Content_Length :
  forall (E : RegexpEngine) (m : responsebodyrewrite) h flusher hijacker req,
  let rw := newSink h flusher hijacker in
  Part001.headersSent (Part001.served m rw req) = true ->
  (exists response, response ∈ responses m /\
       Contains (status response) (Part001.code (Part001.served m rw req)) = true) ->
  exists sent,
    commits (sinkCalls (Part001.ServeHTTP m rw req))
      = [(Part001.code (Part001.served m rw req), sent)] /\
    sent !! "Content-Length" = None.
Proof.
  intros E m h flusher hijacker req rw Hsent Hmatch.
  assert (Hinv : part001Inv (Part001.served m rw req)) by (by apply part001Inv_run).
  unfold part001Inv in Hinv. rewrite Hsent in Hinv.
  destruct Hinv as (sent & Hcommits & Habsent). exists sent. split.
  - unfold Part001.ServeHTTP, sinkWrite. simpl.
    by rewrite commits_app, app_nil_r.
  - apply Habsent. unfold Part001.served. rewrite rwResponses_run. simpl.
    by apply bodyRewrited_true.
Qed.

Lemma part001_matched_status_has_no_Content_Length_witness :
  sinkHeader (Part001.ResponseWriter
                (Part001.run [ EditHeader (Set_ "Content-Length" "18");
                               CallerWriteHeader 103 ]
                   (Part001.served (Tests.middleware (fun _ => []) Tests.replaceFoo)
                                   Tests.recorder Tests.request)))
    !! "Content-Length" = Some ["18"] /\
  exists sent,
    commits (sinkCalls (Part001.ServeHTTP
                          (Tests.middleware (Tests.hintsThenWrites 200) Tests.replaceFoo)
                          Tests.recorder Tests.request))
    = [(200, sent)] /\
    sent !! "Content-Length" = None.
Proof.
  split; [reflexivity|].
  destruct (part001_matched_status_has_no_Content_Length Literal.engine
              (Tests.middleware (Tests.hintsThenWrites 200) Tests.replaceFoo)
              ∅ true false Tests.request eq_refl) as (sent & Hcommits & Habsent).
  - eexists. split; [apply list_elem_of_here|]. reflexivity.
  - exists sent. split; [exact Hcommits|exact Habsent].
Defined.

(** In the revision part_001 a status that no entry contains is committed
    with the Content-Length an informational write has copied. *)
Example part001_unmatched_status_keeps_Content_Length :
  commits (sinkCalls (Part001.ServeHTTP
                        (Tests.middleware (Tests.hintsThenWrites 404) Tests.replaceFoo)
                        Tests.recorder Tests.request))
  = [(404, Set_ "Content-Length" "18" ∅)].
Proof. reflexivity. Qed.

(** * Further properties of main.go *)

(** ** What these statements speak of *)

(** The chunks the handler writes, in order. *)
Definition payloads (calls : list Call) : list (list byte) :=
  omap (fun c => match c with CallerWrite p => Some p | _ => None end) calls.

(** The body writes a sink has received. *)
Definition writes (calls : list SinkCall) : list (list byte) :=
  omap (fun c => match c with CallWrite p => Some p | _ => None end) calls.

(** The status writes a sink has received, informational ones included. *)
Definition statusWrites (calls : list SinkCall) : list (Z * http_Header) :=
  omap (fun c => match c with
                 | CallWriteHeader statusCode h => Some (statusCode, h)
                 | _ => None
                 end) calls.

Definition isCallFlush (c : SinkCall) : bool :=
  match c with CallFlush => true | _ => false end.

Definition isCallHijack (c : SinkCall) : bool :=
  match c with CallHijack => true | _ => false end.

Definition isCallerFlush (c : Call) : bool :=
  match c with CallerFlush => true | _ => false end.

Definition isCallerHijack (c : Call) : bool :=
  match c with CallerHijack => true | _ => false end.

Definition count {A : Type} (p : A -> bool) (l : list A) : nat :=
  length (List.filter p l).

(** A call that commits an uncommitted wrapper: a status write that is not
    informational, or a body write. *)
Definition commitsWrapper (c : Call) : bool :=
  match c with
  | CallerWriteHeader statusCode => negb (informational statusCode)
  | CallerWrite _ => true
  | _ => false
  end.

(** A call that writes neither a status nor the body. *)
Definition silent (c : Call) : bool :=
  match c with
  | EditHeader _ | CallerFlush | CallerHijack => true
  | _ => false
  end.

(** The test of [ServeHTTP] on the Content-Encoding of a header map. *)
Definition encoded (h : http_Header) : bool :=
  negb (String.eqb (Get "Content-Encoding" h) "") &&
  negb (String.eqb (Get "Content-Encoding" h) "identity").

(** The header edits of a handler, applied in order. *)
Definition edited (fs : list (http_Header -> http_Header)) (h : http_Header) : http_Header :=
  fold_left (fun h f => f h) fs h.

(** ** Buffering *)

Lemma count_app {A : Type} (p : A -> bool) (l1 l2 : list A) :
  count p (l1 ++ l2) = (count p l1 + count p l2)%nat.
Proof. unfold count. by rewrite List.filter_app, length_app. Qed.

Lemma writes_app (l1 l2 : list SinkCall) : writes (l1 ++ l2) = writes l1 ++ writes l2.
Proof. apply omap_app. Qed.

Lemma statusWrites_app (l1 l2 : list SinkCall) :
  statusWrites (l1 ++ l2) = statusWrites l1 ++ statusWrites l2.
Proof. apply omap_app. Qed.

(** What a call of the handler does to the buffer and to the body writes of
    the sink. *)
Lemma buffer_call c r :
  buffer (call c r) = buffer r ++ concat (payloads [c]) /\
  writes (sinkCalls (ResponseWriter (call c r))) = writes (sinkCalls (ResponseWriter r)).
Proof.
  destruct c as [f|statusCode|p| |]; cbn [call payloads omap]; simpl concat;
    rewrite ?app_nil_r.
  - unfold editHeader. by destruct (headersSent r).
  - unfold WriteHeader.
    destruct (headersSent r), (informational statusCode); simpl;
      by rewrite ?writes_app, ?app_nil_r.
  - destruct (headersSent r) eqn:Hsent.
    + by rewrite Write_sent.
    + rewrite Write_unsent by done. simpl. by rewrite writes_app, app_nil_r.
  - unfold Flush. destruct (isFlusher (ResponseWriter r)); simpl;
      by rewrite ?writes_app, ?app_nil_r.
  - unfold Hijack. destruct (isHijacker (ResponseWriter r)); simpl;
      by rewrite ?writes_app, ?app_nil_r.
Qed.

Lemma payloads_cons c calls : payloads (c :: calls) = payloads [c] ++ payloads calls.
Proof. unfold payloads. simpl. by destruct c. Qed.

Lemma buffer_run calls r :
  buffer (run calls r) = buffer r ++ concat (payloads calls) /\
  writes (sinkCalls (ResponseWriter (run calls r))) = writes (sinkCalls (ResponseWriter r)).
Proof.
  revert r. induction calls as [|c calls IH]; intros r.
  - simpl. by rewrite app_nil_r.
  - rewrite run_cons. destruct (IH (call c r)) as [Hbuf Hwrites].
    destruct (buffer_call c r) as [Hbuf' Hwrites'].
    rewrite Hbuf, Hwrites, Hbuf', Hwrites', (payloads_cons c calls), concat_app.
    by rewrite app_assoc.
Qed.

(** X2. The wrapper buffers: whatever the handler does, the buffer holds the
    chunks it wrote, in order, and none of them has reached the real sink
    when it returns; the sink receives the body in one write, the last call
    of the request. *)
Theorem body_is_buffered_until_the_end :
  (forall calls r,
      buffer (run calls r) = buffer r ++ concat (payloads calls) /\
      writes (sinkCalls (ResponseWriter (run calls r)))
        = writes (sinkCalls (ResponseWriter r))) /\
  (forall (E : RegexpEngine) (m : responsebodyrewrite) h flusher hijacker req,
      buffer (served m (newSink h flusher hijacker) req) = concat (payloads (next m req)) /\
      exists body,
        writes (sinkCalls (ServeHTTP m (newSink h flusher hijacker) req)) = [body] /\
        last (sinkCalls (ServeHTTP m (newSink h flusher hijacker) req))
          = Some (CallWrite body)).
Proof.
  split; [apply buffer_run|].
  intros E m h flusher hijacker req.
  destruct (buffer_run (next m req) (newResponseWriter m (newSink h flusher hijacker)))
    as [Hbuf Hwrites].
  split; [exact Hbuf|].
  exists (finalBody m (served m (newSink h flusher hijacker) req)).
  rewrite ServeHTTP_calls, writes_app, last_snoc. split; [|done].
  unfold served. by rewrite Hwrites.
Qed.

(** ** The captured status *)

Lemma committed_call c r :
  headersSent r = true ->
  headersSent (call c r) = true /\ code (call c r) = code r /\
  headerMap (call c r) = headerMap r /\
  statusWrites (sinkCalls (ResponseWriter (call c r)))
    = statusWrites (sinkCalls (ResponseWriter r)).
Proof.
  intros Hsent. destruct c as [f|statusCode|p| |]; cbn [call].
  - unfold editHeader. by rewrite Hsent.
  - by rewrite WriteHeader_sent.
  - by rewrite Write_sent.
  - unfold Flush. destruct (isFlusher (ResponseWriter r)); simpl;
      by rewrite ?statusWrites_app, ?app_nil_r.
  - unfold Hijack. destruct (isHijacker (ResponseWriter r)); simpl;
      by rewrite ?statusWrites_app, ?app_nil_r.
Qed.

Lemma committed_run calls r :
  headersSent r = true ->
  headersSent (run calls r) = true /\ code (run calls r) = code r /\
  headerMap (run calls r) = headerMap r /\
  statusWrites (sinkCalls (ResponseWriter (run calls r)))
    = statusWrites (sinkCalls (ResponseWriter r)).
Proof.
  revert r. induction calls as [|c calls IH]; intros r Hsent; [done|].
  rewrite run_cons. destruct (committed_call c r Hsent) as (Hs & Hcode & Hmap & Hst).
  destruct (IH (call c r) Hs) as (Hs' & Hcode' & Hmap' & Hst').
  by rewrite Hs', Hcode', Hmap', Hst', Hcode, Hmap, Hst.
Qed.

Lemma uncommitted_call c r :
  headersSent r = false -> commitsWrapper c = false ->
  headersSent (call c r) = false /\ code (call c r) = code r /\
  buffer (call c r) = buffer r.
Proof.
  intros Hsent Hc. destruct c as [f|statusCode|p| |]; cbn [call]; simpl in Hc.
  - unfold editHeader. by rewrite Hsent.
  - apply negb_false_iff in Hc. by rewrite WriteHeader_informational.
  - done.
  - unfold Flush. by destruct (isFlusher (ResponseWriter r)).
  - unfold Hijack. by destruct (isHijacker (ResponseWriter r)).
Qed.

Lemma uncommitted_run calls r :
  headersSent r = false -> existsb commitsWrapper calls = false ->
  headersSent (run calls r) = false /\ code (run calls r) = code r /\
  buffer (run calls r) = buffer r.
Proof.
  revert r. induction calls as [|c calls IH]; intros r Hsent Hcalls; [done|].
  simpl in Hcalls. apply orb_false_iff in Hcalls as [Hc Hcalls].
  rewrite run_cons. destruct (uncommitted_call c r Hsent Hc) as (Hs & Hcode & Hbuf).
  destruct (IH (call c r) Hs Hcalls) as (Hs' & Hcode' & Hbuf').
  by rewrite Hs', Hcode', Hbuf', Hcode, Hbuf.
Qed.

(** X3. The status the middleware matches is the first final one: a status
    write that is not informational, made before any body write, is
    captured whatever the handler calls afterwards; once the handler has
    written a chunk of the body first, the captured status is 200 whatever
    status it writes afterwards.  After the commit nothing the handler
    calls changes the captured status, the private headers or the status
    writes the sink has received. *)
Theorem first_final_status_is_captured :
  (forall pre statusCode post r,
      headersSent r = false -> existsb commitsWrapper pre = false ->
      informational statusCode = false ->
      code (run (pre ++ CallerWriteHeader statusCode :: post) r) = statusCode) /\
  (forall pre p post r,
      headersSent r = false -> existsb commitsWrapper pre = false ->
      code (run (pre ++ CallerWrite p :: post) r) = 200) /\
  (forall calls r,
      headersSent r = true ->
      headersSent (run calls r) = true /\ code (run calls r) = code r /\
      headerMap (run calls r) = headerMap r /\
      statusWrites (sinkCalls (ResponseWriter (run calls r)))
        = statusWrites (sinkCalls (ResponseWriter r))).
Proof.
  split; [|split].
  - intros pre statusCode post r Hsent Hpre Hfinal.
    destruct (uncommitted_run pre r Hsent Hpre) as (Hs & _ & _).
    rewrite run_app, run_cons. cbn [call].
    destruct (committed_run post (WriteHeader statusCode (run pre r))) as (_ & -> & _).
    + by apply WriteHeader_headersSent.
    + by rewrite WriteHeader_commit.
  - intros pre p post r Hsent Hpre.
    destruct (uncommitted_run pre r Hsent Hpre) as (Hs & _ & _).
    rewrite run_app, run_cons. cbn [call].
    destruct (committed_run post (Write p (run pre r))) as (_ & -> & _).
    + by rewrite Write_unsent.
    + by rewrite Write_unsent.
  - apply committed_run.
Qed.

(** A handler that writes the body and only then a status. *)
Definition writesThenStatus : Handler :=
  fun _ => [ CallerWrite (Text.bytes Tests.resBody); CallerWriteHeader 404 ].

Lemma first_final_status_is_captured_witness :
  code (served (Tests.middleware Tests.writesTwice Tests.replaceFoo)
               Tests.recorder Tests.request) = 404 /\
  code (served (Tests.middleware writesThenStatus Tests.replaceFoo)
               Tests.recorder Tests.request) = 200.
Proof.
  destruct first_final_status_is_captured as (Hstatus & Hwrite & _). split.
  - apply (Hstatus [] 404 [CallerWriteHeader 200; CallerWrite (Text.bytes Tests.resBody)]);
      reflexivity.
  - apply (Hwrite [] (Text.bytes Tests.resBody) [CallerWriteHeader 404]); reflexivity.
Defined.

(** ** Flush and Hijack *)

Lemma capabilities_call c r :
  isFlusher (ResponseWriter (call c r)) = isFlusher (ResponseWriter r) /\
  isHijacker (ResponseWriter (call c r)) = isHijacker (ResponseWriter r).
Proof.
  destruct c as [f|statusCode|p| |]; cbn [call].
  - unfold editHeader. by destruct (headersSent r).
  - unfold WriteHeader. by destruct (headersSent r), (informational statusCode).
  - unfold Write, WriteHeader. by destruct (headersSent r).
  - unfold Flush. by destruct (isFlusher (ResponseWriter r)) eqn:Hfl.
  - unfold Hijack. by destruct (isHijacker (ResponseWriter r)) eqn:Hhj.
Qed.

Lemma forwarded_call c r :
  count isCallFlush (sinkCalls (ResponseWriter (call c r)))
    = (count isCallFlush (sinkCalls (ResponseWriter r)) +
       (if isFlusher (ResponseWriter r) then count isCallerFlush [c] else 0))%nat /\
  count isCallHijack (sinkCalls (ResponseWriter (call c r)))
    = (count isCallHijack (sinkCalls (ResponseWriter r)) +
       (if isHijacker (ResponseWriter r) then count isCallerHijack [c] else 0))%nat.
Proof.
  destruct c as [f|statusCode|p| |]; cbn [call].
  - unfold editHeader.
    destruct (headersSent r), (isFlusher (ResponseWriter r)), (isHijacker (ResponseWriter r));
      simpl; by rewrite !Nat.add_0_r.
  - unfold WriteHeader.
    destruct (headersSent r), (informational statusCode), (isFlusher (ResponseWriter r)),
      (isHijacker (ResponseWriter r)); simpl; rewrite ?count_app; simpl; by rewrite ?Nat.add_0_r.
  - unfold Write, WriteHeader.
    destruct (headersSent r), (isFlusher (ResponseWriter r)), (isHijacker (ResponseWriter r));
      simpl; rewrite ?count_app; simpl; by rewrite ?Nat.add_0_r.
  - unfold Flush.
    destruct (isFlusher (ResponseWriter r)) eqn:Hfl, (isHijacker (ResponseWriter r)) eqn:Hhj;
      simpl; rewrite ?count_app, ?Hfl, ?Hhj; simpl; by rewrite ?Nat.add_0_r.
  - unfold Hijack.
    destruct (isFlusher (ResponseWriter r)) eqn:Hfl, (isHijacker (ResponseWriter r)) eqn:Hhj;
      simpl; rewrite ?count_app, ?Hfl, ?Hhj; simpl; by rewrite ?Nat.add_0_r.
Qed.

Lemma forwarded_run calls r :
  count isCallFlush (sinkCalls (ResponseWriter (run calls r)))
    = (count isCallFlush (sinkCalls (ResponseWriter r)) +
       (if isFlusher (ResponseWriter r) then count isCallerFlush calls else 0))%nat /\
  count isCallHijack (sinkCalls (ResponseWriter (run calls r)))
    = (count isCallHijack (sinkCalls (ResponseWriter r)) +
       (if isHijacker (ResponseWriter r) then count isCallerHijack calls else 0))%nat.
Proof.
  revert r. induction calls as [|c calls IH]; intros r.
  - simpl. destruct (isFlusher (ResponseWriter r)), (isHijacker (ResponseWriter r));
      by rewrite !Nat.add_0_r.
  - rewrite run_cons. destruct (IH (call c r)) as [Hfl Hhj].
    destruct (forwarded_call c r) as [Hfl' Hhj'].
    destruct (capabilities_call c r) as [Hcapf Hcaph].
    rewrite Hfl, Hhj, Hfl', Hhj', Hcapf, Hcaph.
    change (c :: calls) with ([c] ++ calls). rewrite !count_app.
    destruct (isFlusher (ResponseWriter r)), (isHijacker (ResponseWriter r)); lia.
Qed.

(** X4. [Flush] and [Hijack] reach the real sink exactly when it has the
    capability: a sink that is a flusher receives one flush for each flush
    of the handler and a sink that is not receives none, and likewise for
    hijacking, where the handler is told of the failure and the wrapper is
    left as it was.  A flush sends nothing of what the wrapper holds: it
    commits no status and leaves the buffer and both header maps alone. *)
Theorem capabilities_are_forwarded :
  (forall (E : RegexpEngine) (m : responsebodyrewrite) h flusher hijacker req,
      count isCallFlush (sinkCalls (ServeHTTP m (newSink h flusher hijacker) req))
        = (if flusher then count isCallerFlush (next m req) else 0%nat) /\
      count isCallHijack (sinkCalls (ServeHTTP m (newSink h flusher hijacker) req))
        = (if hijacker then count isCallerHijack (next m req) else 0%nat)) /\
  (forall r, fst (Hijack r) = isHijacker (ResponseWriter r) /\
             (isHijacker (ResponseWriter r) = false -> snd (Hijack r) = r)) /\
  (forall r, headersSent (Flush r) = headersSent r /\ buffer (Flush r) = buffer r /\
             headerMap (Flush r) = headerMap r /\
             sinkHeader (ResponseWriter (Flush r)) = sinkHeader (ResponseWriter r) /\
             statusWrites (sinkCalls (ResponseWriter (Flush r)))
               = statusWrites (sinkCalls (ResponseWriter r)) /\
             writes (sinkCalls (ResponseWriter (Flush r)))
               = writes (sinkCalls (ResponseWriter r))).
Proof.
  split; [|split].
  - intros E m h flusher hijacker req.
    rewrite ServeHTTP_calls, !count_app. unfold served.
    destruct (forwarded_run (next m req) (newResponseWriter m (newSink h flusher hijacker)))
      as [-> ->].
    simpl.
    change (count isCallFlush [CallWrite _]) with 0%nat.
    change (count isCallHijack [CallWrite _]) with 0%nat.
    by rewrite !Nat.add_0_r.
  - intros r. unfold Hijack. by destruct (isHijacker (ResponseWriter r)).
  - intros r. unfold Flush. destruct (isFlusher (ResponseWriter r)); simpl;
      by rewrite ?statusWrites_app, ?writes_app, ?app_nil_r.
Qed.

(** A handler that flushes before and after the body and tries to hijack. *)
Definition flushesAndHijacks : Handler :=
  fun _ => [ CallerFlush; CallerWrite (Text.bytes Tests.resBody); CallerFlush;
             CallerHijack ].

Lemma capabilities_are_forwarded_witness :
  count isCallFlush (sinkCalls (ServeHTTP (Tests.middleware flushesAndHijacks Tests.replaceFoo)
                                          Tests.recorder Tests.request)) = 2%nat /\
  count isCallHijack (sinkCalls (ServeHTTP (Tests.middleware flushesAndHijacks
                                                             Tests.replaceFoo)
                                           Tests.recorder Tests.request)) = 0%nat /\
  snd (Hijack (newResponseWriter (Tests.middleware flushesAndHijacks Tests.replaceFoo)
                                 Tests.recorder))
  = newResponseWriter (Tests.middleware flushesAndHijacks Tests.replaceFoo) Tests.recorder.
Proof.
  destruct capabilities_are_forwarded as (Hcount & Hhijack & _).
  destruct (Hcount Literal.engine (Tests.middleware flushesAndHijacks Tests.replaceFoo)
              ∅ true false Tests.request) as [Hfl Hhj].
  split; [exact Hfl|]. split; [exact Hhj|].
  destruct (Hhijack (newResponseWriter (Tests.middleware flushesAndHijacks
                                                         Tests.replaceFoo)
                                       Tests.recorder)) as [_ Hsame].
  apply Hsame. reflexivity.
Defined.

(** ** A whole response *)

Lemma run_edits (fs : list (http_Header -> http_Header)) r :
  headersSent r = false ->
  run (map EditHeader fs) r =
  {| buffer := buffer r; rwLastModified := rwLastModified r;
     headerMap := edited fs (headerMap r); headersSent := false; code := code r;
     ResponseWriter := ResponseWriter r |}.
Proof.
  revert r. induction fs as [|f fs IH]; intros r Hsent.
  - simpl. destruct r. simpl in Hsent. by subst.
  - cbn [map]. rewrite run_cons. cbn [call]. unfold editHeader. rewrite Hsent.
    rewrite IH by done. reflexivity.
Qed.

Lemma run_writes (ps : list (list byte)) r :
  headersSent r = true ->
  run (map CallerWrite ps) r =
  {| buffer := buffer r ++ concat ps; rwLastModified := rwLastModified r;
     headerMap := headerMap r; headersSent := true; code := code r;
     ResponseWriter := ResponseWriter r |}.
Proof.
  revert r. induction ps as [|p ps IH]; intros r Hsent.
  - simpl. rewrite app_nil_r. destruct r. simpl in Hsent. by subst.
  - cbn [map]. rewrite run_cons. cbn [call]. rewrite Write_sent by done.
    rewrite IH by done. simpl. by rewrite ?Hsent, app_assoc.
Qed.

(** X5. A handler that sets its headers, writes a final status and then
    writes the body in chunks makes the real sink receive exactly two
    calls.  The first is the status, with the handler's headers laid over
    those the sink already had and Content-Length removed.  The second is
    the body: the chunks put together, as they are when those headers name
    an encoding other than "identity", and rewritten for the written status
    otherwise. *)
Theorem ServeHTTP_status_then_body :
  forall (E : RegexpEngine) (m : responsebodyrewrite) h flusher hijacker req
         (fs : list (http_Header -> http_Header)) (statusCode : Z) (ps : list (list byte)),
    next m req = map EditHeader fs ++ CallerWriteHeader statusCode :: map CallerWrite ps ->
    informational statusCode = false ->
    let sent := Del "Content-Length" (copyHeader (edited fs ∅) h) in
    sinkHeader (ServeHTTP m (newSink h flusher hijacker) req) = sent /\
    sinkCalls (ServeHTTP m (newSink h flusher hijacker) req) =
      [ CallWriteHeader statusCode sent;
        CallWrite (if encoded sent then concat ps
                   else rewriteBody (responses m) statusCode (concat ps)) ].
Proof.
  intros E m h flusher hijacker req fs statusCode ps Hnext Hfinal sent.
  rewrite ServeHTTP_header, ServeHTTP_calls. unfold served.
  rewrite Hnext, run_app, run_edits, run_cons by done. cbn [call].
  rewrite WriteHeader_commit by done. rewrite run_writes by done.
  unfold finalBody, Header. simpl. done.
Qed.

Lemma ServeHTTP_status_then_body_witness :
  sinkCalls (ServeHTTP (Tests.middleware (Tests.nextHandler "identity" 200) Tests.replaceFoo)
                       Tests.recorder Tests.request)
  = [ CallWriteHeader 200
        (Set_ "Last-Modified" "Thu, 02 Jun 2016 06:01:08 GMT"
           (Set_ "Content-Encoding" "identity" ∅));
      CallWrite (Text.bytes "bar is the new bar") ].
Proof.
  destruct (ServeHTTP_status_then_body Literal.engine
              (Tests.middleware (Tests.nextHandler "identity" 200) Tests.replaceFoo)
              ∅ true false Tests.request
              [ Set_ "Content-Encoding" "identity";
                Set_ "Last-Modified" "Thu, 02 Jun 2016 06:01:08 GMT";
                Set_ "Content-Length" "18" ]
              200 [Text.bytes Tests.resBody] eq_refl eq_refl) as [_ Hcalls].
  etransitivity; [exact Hcalls|reflexivity].
Defined.

(** ** A handler that writes nothing *)

Lemma silent_call c r :
  headersSent r = false -> silent c = true ->
  headersSent (call c r) = false /\ code (call c r) = code r /\
  buffer (call c r) = buffer r /\
  sinkHeader (ResponseWriter (call c r)) = sinkHeader (ResponseWriter r) /\
  statusWrites (sinkCalls (ResponseWriter (call c r)))
    = statusWrites (sinkCalls (ResponseWriter r)).
Proof.
  intros Hsent Hc. destruct c as [f|statusCode|p| |]; cbn [call]; try done.
  - unfold editHeader. by rewrite Hsent.
  - unfold Flush. destruct (isFlusher (ResponseWriter r)); simpl;
      by rewrite ?statusWrites_app, ?app_nil_r.
  - unfold Hijack. destruct (isHijacker (ResponseWriter r)); simpl;
      by rewrite ?statusWrites_app, ?app_nil_r.
Qed.

Lemma silent_run calls r :
  headersSent r = false -> forallb silent calls = true ->
  headersSent (run calls r) = false /\ code (run calls r) = code r /\
  buffer (run calls r) = buffer r /\
  sinkHeader (ResponseWriter (run calls r)) = sinkHeader (ResponseWriter r) /\
  statusWrites (sinkCalls (ResponseWriter (run calls r)))
    = statusWrites (sinkCalls (ResponseWriter r)).
Proof.
  revert r. induction calls as [|c calls IH]; intros r Hsent Hcalls; [done|].
  simpl in Hcalls. apply andb_true_iff in Hcalls as [Hc Hcalls].
  rewrite run_cons.
  destruct (silent_call c r Hsent Hc) as (Hs & Hcode & Hbuf & Hhdr & Hst).
  destruct (IH (call c r) Hs Hcalls) as (Hs' & Hcode' & Hbuf' & Hhdr' & Hst').
  by rewrite Hs', Hcode', Hbuf', Hhdr', Hst', Hcode, Hbuf, Hhdr, Hst.
Qed.

(** X6. The headers of a handler reach the real sink only through a status
    write or a body write.  When the handler makes neither (it only edits
    headers, flushes or hijacks), the sink's header map is what it was
    before the request and the sink receives no status; [ServeHTTP] still
    ends with its one write, of the empty buffer as the rules for status
    200 rewrite it, or of the empty buffer itself when the handler's own
    headers name an encoding. *)
Theorem silent_handler_headers_are_dropped :
  forall (E : RegexpEngine) (m : responsebodyrewrite) (rw : Sink) (req : Request),
    forallb silent (next m req) = true ->
    sinkHeader (ServeHTTP m rw req) = sinkHeader rw /\
    statusWrites (sinkCalls (ServeHTTP m rw req)) = statusWrites (sinkCalls rw) /\
    bodyWritten (ServeHTTP m rw req) =
      Some (if encoded (headerMap (served m rw req)) then []
            else rewriteBody (responses m) 200 []).
Proof.
  intros E m rw req Hsilent.
  destruct (silent_run (next m req) (newResponseWriter m rw) eq_refl Hsilent)
    as (Hs & Hcode & Hbuf & Hhdr & Hst).
  fold (served m rw req) in Hs, Hcode, Hbuf, Hhdr, Hst.
  rewrite ServeHTTP_header, bodyWritten_ServeHTTP, ServeHTTP_calls, statusWrites_app.
  rewrite Hhdr, Hst. simpl. rewrite app_nil_r. do 2 (split; [done|]).
  unfold finalBody, Header, encoded. by rewrite Hs, Hcode, Hbuf.
Qed.

(** A handler that only sets a header. *)
Definition setsHeaderOnly : Handler :=
  fun _ => [ EditHeader (Set_ "Last-Modified" "Thu, 02 Jun 2016 06:01:08 GMT") ].

Lemma silent_handler_headers_are_dropped_witness :
  sinkHeader (ServeHTTP (Tests.middleware setsHeaderOnly Tests.replaceFoo)
                        Tests.recorder Tests.request) = ∅ /\
  sinkCalls (ServeHTTP (Tests.middleware setsHeaderOnly Tests.replaceFoo)
                       Tests.recorder Tests.request) = [CallWrite []].
Proof.
  destruct (silent_handler_headers_are_dropped Literal.engine
              (Tests.middleware setsHeaderOnly Tests.replaceFoo)
              Tests.recorder Tests.request eq_refl) as (Hhdr & _ & _).
  split; [exact Hhdr|reflexivity].
Defined.

(** ** The error New returns *)

Lemma mapM_first_Err {A B : Type} (f : A -> result B) (pre post : list A) (x : A) e :
  Forall (fun a => isErr (f a) = false) pre ->
  f x = Err e ->
  mapM f (pre ++ x :: post) = Err e.
Proof.
  intros Hpre Hx. induction Hpre as [|a pre Ha _ IH]; simpl.
  - by rewrite Hx.
  - destruct (f a) as [b|e']; [|done]. simpl. by rewrite IH.
Qed.

Lemma mapM_not_Err {A B : Type} (f : A -> result B) (xs : list A) :
  Forall (fun a => isErr (f a) = false) xs -> isErr (mapM f xs) = false.
Proof.
  intros Hxs. destruct (isErr (mapM f xs)) eqn:Herr; [|done].
  apply mapM_Err in Herr as (x & Hin & Hx).
  rewrite Forall_forall in Hxs. by rewrite (Hxs x Hin) in Hx.
Qed.

(** An entry of the configuration that [New] accepts. *)
Definition accepted {E : RegexpEngine} (rejectInverted : bool) (response : Response) : Prop :=
  isErr (NewHTTPCodeRanges rejectInverted [Status response]) = false /\
  Forall (fun rewriteConfig => is_Some (Compile (Regex rewriteConfig))) (Rewrites response).

Lemma accepted_parseResponse {E : RegexpEngine} rejectInverted response :
  accepted rejectInverted response ->
  isErr (parseResponse rejectInverted response) = false.
Proof.
  intros [Hstatus Hrewrites].
  destruct (isErr (parseResponse rejectInverted response)) eqn:Herr; [|done].
  apply parseResponse_Err in Herr as [Herr|(rewriteConfig & Hin & Hnone)].
  - by rewrite Hstatus in Herr.
  - rewrite Forall_forall in Hrewrites.
    destruct (Hrewrites rewriteConfig Hin) as [re Hre]. by rewrite Hre in Hnone.
Qed.

(** X7. [New] stops at the first entry it cannot build and returns that
    entry's error: the error of the status parser when the status of that
    entry does not parse, whatever its patterns are, and otherwise the error
    that names the first pattern of the entry that does not compile.  The
    entries after it are not looked at. *)
Theorem New_returns_the_first_error :
  forall (E : RegexpEngine) (rejectInverted : bool) (nextHandler : Handler)
         (middlewareName : string) (pre post : list Response) (response : Response),
    Forall (accepted rejectInverted) pre ->
    (forall e,
        NewHTTPCodeRanges rejectInverted [Status response] = Err e ->
        New rejectInverted nextHandler {| Responses := pre ++ response :: post |}
            middlewareName = Err e) /\
    (forall h before bad after,
        NewHTTPCodeRanges rejectInverted [Status response] = Ok h ->
        Rewrites response = before ++ bad :: after ->
        Forall (fun rewriteConfig => is_Some (Compile (Regex rewriteConfig))) before ->
        Compile (Regex bad) = None ->
        New rejectInverted nextHandler {| Responses := pre ++ response :: post |}
            middlewareName = Err (CompileError (Regex bad))).
Proof.
  intros E rejectInverted nextHandler middlewareName pre post response Hpre.
  assert (Hpre' : Forall (fun r => isErr (parseResponse rejectInverted r) = false) pre).
  { eapply Forall_impl; [exact Hpre|]. intros r. apply accepted_parseResponse. }
  split.
  - intros e Hstatus. unfold New. cbn [Responses].
    rewrite (mapM_first_Err _ pre post response e Hpre'); [done|].
    unfold parseResponse. by rewrite Hstatus.
  - intros h before bad after Hstatus Hsplit Hbefore Hbad. unfold New. cbn [Responses].
    rewrite (mapM_first_Err _ pre post response (CompileError (Regex bad)) Hpre'); [done|].
    unfold parseResponse. rewrite Hstatus, Hsplit. cbn [bind].
    rewrite (mapM_first_Err _ before after bad (CompileError (Regex bad))); [done| |].
    + eapply Forall_impl; [exact Hbefore|]. intros rewriteConfig [re Hre].
      unfold compileRewrite. by rewrite Hre.
    + unfold compileRewrite. by rewrite Hbad.
Qed.

(** A good entry, then one whose status and pattern are both bad, then one
    with another bad pattern. *)
Definition goodThenBad : Config :=
  {| Responses := [ {| Rewrites := [Tests.fooBar]; Status := "200-299" |};
                    {| Rewrites := [ {| Regex := "*"; Replacement := "" |} ];
                       Status := "4xx" |};
                    {| Rewrites := [ {| Regex := "+"; Replacement := "" |} ];
                       Status := "500" |} ] |}.

Lemma New_returns_the_first_error_witness :
  New (E := Literal.engine) false (Tests.nextHandler "" 200) goodThenBad "rewriteBody"
    = Err (ParseError "4xx") /\
  New (E := Literal.engine) false (Tests.nextHandler "" 200)
      {| Responses := [ {| Rewrites := [ Tests.fooBar;
                                         {| Regex := "*"; Replacement := "" |};
                                         {| Regex := "+"; Replacement := "" |} ];
                           Status := "200" |} ] |}
      "rewriteBody"
    = Err (CompileError "*").
Proof.
  split.
  - destruct (New_returns_the_first_error Literal.engine false (Tests.nextHandler "" 200)
                "rewriteBody"
                [ {| Rewrites := [Tests.fooBar]; Status := "200-299" |} ]
                [ {| Rewrites := [ {| Regex := "+"; Replacement := "" |} ];
                     Status := "500" |} ]
                {| Rewrites := [ {| Regex := "*"; Replacement := "" |} ]; Status := "4xx" |})
      as [Hstatus _].
    + constructor; [|constructor]. split; [reflexivity|].
      constructor; [|constructor]. eexists. reflexivity.
    + apply Hstatus. reflexivity.
  - destruct (New_returns_the_first_error Literal.engine false (Tests.nextHandler "" 200)
                "rewriteBody" [] []
                {| Rewrites := [ Tests.fooBar;
                                 {| Regex := "*"; Replacement := "" |};
                                 {| Regex := "+"; Replacement := "" |} ];
                   Status := "200" |})
      as [_ Hpattern]; [constructor|].
    apply (Hpattern [(200, 200)] [Tests.fooBar] {| Regex := "*"; Replacement := "" |}
                    [ {| Regex := "+"; Replacement := "" |} ]).
    + reflexivity.
    + reflexivity.
    + constructor; [|constructor]. eexists. reflexivity.
    + reflexivity.
Defined.

(** ** The default configuration *)

(** X8. [New] accepts the configuration [CreateConfig] returns, and the
    middleware it builds has no entry: it hands every body to the real sink
    as the handler wrote it, whatever the status and the encoding. *)
Theorem default_config_rewrites_nothing :
  forall (E : RegexpEngine) (rejectInverted : bool) (nextHandler : Handler)
         (middlewareName : string),
  exists r : responsebodyrewrite,
    New rejectInverted nextHandler CreateConfig middlewareName = Ok r /\
    responses r = [] /\
    forall rw req,
      bodyWritten (ServeHTTP r rw req) = Some (concat (payloads (nextHandler req))).
Proof.
  intros E rejectInverted nextHandler middlewareName. eexists.
  split; [reflexivity|]. split; [reflexivity|]. intros rw req.
  rewrite bodyWritten_ServeHTTP. f_equal. unfold finalBody. cbn [responses rewriteBody].
  destruct (buffer_run (nextHandler req)
              (newResponseWriter
                 {| next := nextHandler; name := middlewareName; responses := [];
                    lastModified := true |} rw)) as [Hbuf _].
  unfold served. cbn [next]. rewrite Hbuf.
  by destruct (negb (String.eqb _ "") && negb (String.eqb _ "identity")).
Qed.

(** ** Fields that are never read *)

Definition setLastModified (flag : bool) (r : responseWriter) : responseWriter :=
  {| buffer := buffer r; rwLastModified := flag; headerMap := headerMap r;
     headersSent := headersSent r; code := code r; ResponseWriter := ResponseWriter r |}.

Lemma setLastModified_call flag c r :
  call c (setLastModified flag r) = setLastModified flag (call c r).
Proof.
  destruct c as [f|statusCode|p| |]; cbn [call].
  - unfold editHeader. simpl. by destruct (headersSent r).
  - unfold WriteHeader, Header. simpl.
    by destruct (headersSent r), (informational statusCode).
  - unfold Write, WriteHeader, Header. simpl. by destruct (headersSent r).
  - unfold Flush. simpl. by destruct (isFlusher (ResponseWriter r)).
  - unfold Hijack. simpl. by destruct (isHijacker (ResponseWriter r)).
Qed.

Lemma setLastModified_run flag calls r :
  run calls (setLastModified flag r) = setLastModified flag (run calls r).
Proof.
  revert r. induction calls as [|c calls IH]; intros r; [done|].
  by rewrite !run_cons, setLastModified_call, IH.
Qed.

(** X9. What the real sink receives depends on the next handler and on the
    parsed entries only: the field [lastModified], which [New] sets and
    [ServeHTTP] copies into every wrapper, and the field [name] are never
    consulted. *)
Theorem lastModified_and_name_have_no_effect :
  forall (E : RegexpEngine) (r r' : responsebodyrewrite) (rw : Sink) (req : Request),
    next r = next r' -> responses r = responses r' ->
    ServeHTTP r rw req = ServeHTTP r' rw req.
Proof.
  intros E r r' rw req Hnext Hresponses.
  assert (Hserved : served r rw req = setLastModified (lastModified r) (served r' rw req)).
  { unfold served. rewrite Hnext, <- setLastModified_run. reflexivity. }
  rewrite !ServeHTTP_finalBody, Hserved. unfold finalBody, Header. simpl.
  by rewrite Hresponses.
Qed.

Lemma lastModified_and_name_have_no_effect_witness :
  ServeHTTP {| next := Tests.nextHandler "" 200; name := "a";
               responses := responses (Tests.middleware (Tests.nextHandler "" 200)
                                                        Tests.replaceFoo);
               lastModified := false |}
            Tests.recorder Tests.request
  = ServeHTTP (Tests.middleware (Tests.nextHandler "" 200) Tests.replaceFoo)
              Tests.recorder Tests.request.
Proof.
  apply lastModified_and_name_have_no_effect; reflexivity.
Defined.

(** * Further properties of the revision part_001 *)

Section Part001Response.

Context {E : RegexpEngine}.





End Part001Response.



(** * The earliest revision src/unnamed/part_000 *)

(** The wrapper before informational statuses and private headers were
    handled.  It has no [Header] method of its own, so [rw.Header()] is the
    method of the embedded real sink and every header edit falls on the
    sink's map; [headerMap] is made and never used.  [WriteHeader] commits
    whatever the code is. *)
Module Part000.

Section Revision.

Context {E : RegexpEngine}.

Record responseWriter : Type := {
  buffer : list byte;
  headerMap : http_Header;
  headersSent : bool;
  code : Z;
  ResponseWriter : Sink;
  rwResponses : list parsedResponse
}.

Definition withSink (sink : Sink) (rw : responseWriter) : responseWriter :=
  {| buffer := buffer rw; headerMap := headerMap rw; headersSent := headersSent rw;
     code := code rw; ResponseWriter := sink; rwResponses := rwResponses rw |}.

(** [for _, response := range rw.responses
      { if !response.status.Contains(statusCode) { continue };
        rw.ResponseWriter.Header().Del("Content-Length"); break }] *)
Fixpoint dropContentLength (rs : list parsedResponse) (statusCode : Z) (sink : Sink) : Sink :=
  match rs with
  | [] => sink
  | response :: rs' =>
      if negb (Contains (status response) statusCode)
      then dropContentLength rs' statusCode sink
      else sinkSetHeader (Del "Content-Length" (sinkHeader sink)) sink
  end.

Definition WriteHeader (statusCode : Z) (rw : responseWriter) : responseWriter :=
  if headersSent rw then rw
  else
    let sink := dropContentLength (rwResponses rw) statusCode (ResponseWriter rw) in
    {| buffer := buffer rw; headerMap := headerMap rw; headersSent := true;
       code := statusCode; ResponseWriter := sinkWriteHeader statusCode sink;
       rwResponses := rwResponses rw |}.

Definition Write (p : list byte) (rw : responseWriter) : responseWriter :=
  let rw := if negb (headersSent rw) then WriteHeader 200 rw else rw in
  {| buffer := buffer rw ++ p; headerMap := headerMap rw; headersSent := headersSent rw;
     code := code rw; ResponseWriter := ResponseWriter rw;
     rwResponses := rwResponses rw |}.

Definition Hijack (rw : responseWriter) : bool * responseWriter :=
  if isHijacker (ResponseWriter rw)
  then (true, withSink (sinkCall CallHijack (ResponseWriter rw)) rw)
  else (false, rw).

Definition Flush (rw : responseWriter) : responseWriter :=
  if isFlusher (ResponseWriter rw)
  then withSink (sinkCall CallFlush (ResponseWriter rw)) rw
  else rw.

(** [h := rw.Header()], the sink's map, updated in place. *)
Definition editHeader (f : http_Header -> http_Header) (rw : responseWriter) : responseWriter :=
  withSink (sinkSetHeader (f (sinkHeader (ResponseWriter rw))) (ResponseWriter rw)) rw.

Definition call (c : Call) (rw : responseWriter) : responseWriter :=
  match c with
  | EditHeader f => editHeader f rw
  | CallerWriteHeader statusCode => WriteHeader statusCode rw
  | CallerWrite p => Write p rw
  | CallerFlush => Flush rw
  | CallerHijack => snd (Hijack rw)
  end.

Definition run (calls : list Call) (rw : responseWriter) : responseWriter :=
  fold_left (fun rw c => call c rw) calls rw.

Definition served (r : responsebodyrewrite) (rw : Sink) (req : Request) : responseWriter :=
  run (next r req)
      {| buffer := []; headerMap := ∅; headersSent := false; code := 200;
         ResponseWriter := rw; rwResponses := responses r |}.

Definition ServeHTTP (r : responsebodyrewrite) (rw : Sink) (req : Request) : Sink :=
  let wrappedWriter := served r rw req in
  sinkWrite (rewriteBody (responses r) (code wrappedWriter) (buffer wrappedWriter))
            (ResponseWriter wrappedWriter).

End Revision.

End Part000.

Section Part000Facts.

Context {E : RegexpEngine}.

Lemma dropContentLength_matched (rs : list parsedResponse) statusCode sink :
  Part000.dropContentLength rs statusCode sink =
  if existsb (fun response => Contains (status response) statusCode) rs
  then sinkSetHeader (Del "Content-Length" (sinkHeader sink)) sink
  else sink.
Proof.
  induction rs as [|response rs IH]; simpl; [done|].
  by destruct (Contains (status response) statusCode).
Qed.

Lemma part000_run_app calls1 calls2 (rw : Part000.responseWriter) :
  Part000.run (calls1 ++ calls2) rw = Part000.run calls2 (Part000.run calls1 rw).
Proof. apply fold_left_app. Qed.

Lemma part000_run_cons c calls (rw : Part000.responseWriter) :
  Part000.run (c :: calls) rw = Part000.run calls (Part000.call c rw).
Proof. reflexivity. Qed.

Lemma part000_run_edits (fs : list (http_Header -> http_Header)) (rw : Part000.responseWriter) :
  Part000.run (map EditHeader fs) rw =
  Part000.withSink (sinkSetHeader (edited fs (sinkHeader (Part000.ResponseWriter rw)))
                                  (Part000.ResponseWriter rw)) rw.
Proof.
  revert rw. induction fs as [|f fs IH]; intros rw.
  - simpl. by destruct rw as [? ? ? ? [] ?].
  - cbn [map]. rewrite part000_run_cons. cbn [Part000.call]. rewrite IH. reflexivity.
Qed.

Lemma part000_run_writes (ps : list (list byte)) (rw : Part000.responseWriter) :
  Part000.headersSent rw = true ->
  Part000.run (map CallerWrite ps) rw =
  {| Part000.buffer := Part000.buffer rw ++ concat ps;
     Part000.headerMap := Part000.headerMap rw;
     Part000.headersSent := true; Part000.code := Part000.code rw;
     Part000.ResponseWriter := Part000.ResponseWriter rw;
     Part000.rwResponses := Part000.rwResponses rw |}.
Proof.
  revert rw. induction ps as [|p ps IH]; intros rw Hsent.
  - simpl. rewrite app_nil_r. destruct rw. simpl in Hsent. by subst.
  - cbn [map]. rewrite part000_run_cons. cbn [Part000.call].
    unfold Part000.Write. rewrite Hsent. cbn [negb]. rewrite IH by done.
    simpl. by rewrite app_assoc.
Qed.

(** Between two calls of the handler: the sink has received at most one
    status, the captured one. *)
Definition part000Inv (rw : Part000.responseWriter) : Prop :=
  if Part000.headersSent rw
  then exists h,
      statusWrites (sinkCalls (Part000.ResponseWriter rw)) = [(Part000.code rw, h)]
  else statusWrites (sinkCalls (Part000.ResponseWriter rw)) = [].

Lemma dropContentLength_calls (rs : list parsedResponse) statusCode sink :
  sinkCalls (Part000.dropContentLength rs statusCode sink) = sinkCalls sink.
Proof. rewrite dropContentLength_matched. by destruct (existsb _ rs). Qed.

Lemma part000Inv_WriteHeader statusCode rw :
  part000Inv rw -> part000Inv (Part000.WriteHeader statusCode rw).
Proof.
  unfold part000Inv, Part000.WriteHeader. intros Hinv.
  destruct (Part000.headersSent rw) eqn:Hsent; [by rewrite Hsent|]. simpl.
  rewrite statusWrites_app, dropContentLength_calls, Hinv. simpl. by eexists.
Qed.

Lemma part000Inv_call c rw : part000Inv rw -> part000Inv (Part000.call c rw).
Proof.
  intros Hinv. destruct c as [f|statusCode|p| |]; cbn [Part000.call].
  - done.
  - by apply part000Inv_WriteHeader.
  - unfold Part000.Write.
    pose proof (part000Inv_WriteHeader 200 rw Hinv) as Hinv'.
    destruct (negb (Part000.headersSent rw)); done.
  - unfold part000Inv, Part000.Flush in *.
    destruct (isFlusher (Part000.ResponseWriter rw)); [|done]. simpl.
    by rewrite statusWrites_app, app_nil_r.
  - unfold part000Inv, Part000.Hijack in *.
    destruct (isHijacker (Part000.ResponseWriter rw)); [|done]. simpl.
    by rewrite statusWrites_app, app_nil_r.
Qed.

Lemma part000Inv_run calls rw : part000Inv rw -> part000Inv (Part000.run calls rw).
Proof.
  revert rw. induction calls as [|c calls IH]; intros rw Hinv; [done|].
  rewrite part000_run_cons. apply IH. by apply part000Inv_call.
Qed.

End Part000Facts.

(** X11. In the revision part_000 the first status write is final whatever
    its code, an informational one included: the real sink receives at most
    one status in a request.  A handler that sets its headers, writes a
    status and then the body has the status sent with the sink's headers as
    the handler edited them, less Content-Length exactly when an entry
    contains the status, and the body rewritten for that status. *)
Theorem part000_first_status_is_final :
  (forall (E : RegexpEngine) (m : responsebodyrewrite) h flusher hijacker req,
      (length (statusWrites (sinkCalls (Part000.ServeHTTP m (newSink h flusher hijacker) req)))
       <= 1)%nat) /\
  (forall (E : RegexpEngine) (m : responsebodyrewrite) h flusher hijacker req
          (fs : list (http_Header -> http_Header)) (statusCode : Z) (ps : list (list byte)),
      next m req = map EditHeader fs ++ CallerWriteHeader statusCode :: map CallerWrite ps ->
      sinkCalls (Part000.ServeHTTP m (newSink h flusher hijacker) req) =
        [ CallWriteHeader statusCode
            (if existsb (fun response => Contains (status response) statusCode) (responses m)
             then Del "Content-Length" (edited fs h) else edited fs h);
          CallWrite (rewriteBody (responses m) statusCode (concat ps)) ]).
Proof.
  split.
  - intros E m h flusher hijacker req.
    unfold Part000.ServeHTTP, sinkWrite. simpl. rewrite statusWrites_app. simpl.
    rewrite app_nil_r.
    assert (Hinv : part000Inv (Part000.served m (newSink h flusher hijacker) req))
      by (by apply part000Inv_run).
    unfold part000Inv in Hinv.
    destruct (Part000.headersSent (Part000.served m (newSink h flusher hijacker) req)).
    + destruct Hinv as [sent ->]. simpl. lia.
    + rewrite Hinv. simpl. lia.
  - intros E m h flusher hijacker req fs statusCode ps Hnext.
    unfold Part000.ServeHTTP, Part000.served. rewrite Hnext.
    rewrite !part000_run_app, !part000_run_cons, part000_run_edits.
    cbn [Part000.call]. unfold Part000.WriteHeader.
    cbn [Part000.withSink Part000.headersSent Part000.rwResponses Part000.ResponseWriter].
    rewrite part000_run_writes by done. rewrite dropContentLength_matched.
    by destruct (existsb _ (responses m)).
Qed.

Lemma part000_first_status_is_final_witness :
  statusWrites (sinkCalls (Part000.ServeHTTP
                             (Tests.middleware (Tests.hintsThenWrites 200) Tests.replaceFoo)
                             Tests.recorder Tests.request))
  = [(103, Set_ "Content-Length" "18" ∅)] /\
  (length (statusWrites
             (sinkCalls (Part000.ServeHTTP
                           (Tests.middleware (Tests.hintsThenWrites 200) Tests.replaceFoo)
                           Tests.recorder Tests.request))) <= 1)%nat /\
  sinkCalls (Part000.ServeHTTP
               (Tests.middleware (Tests.nextHandler "" 200) Tests.replaceFoo)
               Tests.recorder Tests.request)
  = [ CallWriteHeader 200
        (Set_ "Last-Modified" "Thu, 02 Jun 2016 06:01:08 GMT"
           (Set_ "Content-Encoding" "" ∅));
      CallWrite (Text.bytes "bar is the new bar") ].
Proof.
  destruct part000_first_status_is_final as [Hone Hcalls].
  split; [reflexivity|]. split.
  - apply (Hone Literal.engine).
  - etransitivity.
    + apply (Hcalls Literal.engine
               (Tests.middleware (Tests.nextHandler "" 200) Tests.replaceFoo)
               ∅ true false Tests.request
               [ Set_ "Content-Encoding" "";
                 Set_ "Last-Modified" "Thu, 02 Jun 2016 06:01:08 GMT";
                 Set_ "Content-Length" "18" ]
               200 [Text.bytes Tests.resBody]).
      reflexivity.
    + reflexivity.
Defined.

(** * The rows of TestServeHTTP *)

(** What the test reads from the recorder: the body, and whether the headers
    sent with the status hold Content-Length. *)
Definition recorded (contentEncoding : string) (httpStatus : Z) (config : Config)
  : option (list byte) * list bool :=
  let rw := ServeHTTP (Tests.middleware (Tests.nextHandler contentEncoding httpStatus) config)
                      Tests.recorder Tests.request in
  (bodyWritten rw,
   map (fun sent => bool_decide (is_Some (snd sent !! "Content-Length")))
       (commits (sinkCalls rw))).

(** Each row of TestServeHTTP gives the body the test expects, without
    Content-Length, on the literal engine. *)
Example TestServeHTTP_rows :
  recorded "" 200 Tests.replaceFoo = (Some (Text.bytes "bar is the new bar"), [false]) /\
  recorded "" 404 Tests.replaceFoo = (Some (Text.bytes "foo is the new bar"), [false]) /\
  recorded "" 200 Tests.replaceFooThenBar
    = (Some (Text.bytes "foo is the new foo"), [false]) /\
  recorded "gzip" 200 Tests.replaceFoo
    = (Some (Text.bytes "foo is the new bar"), [false]) /\
  recorded "identity" 200 Tests.replaceFoo
    = (Some (Text.bytes "bar is the new bar"), [false]).
Proof. repeat split; reflexivity. Qed.
